(** * mmyron-ssh: the terminal document browser, embedded and verified

    The repository serves a small site over SSH with bubbletea.
    [main.go] holds two revisions of the program, one after the other:

    - the landing-page revision (lines 1-382): one static page made of a
      top block, four project blocks and a bottom block, laid out in one
      or two columns ([RerenderContent]);
    - the posts revision (lines 384-816): navigation between [/root],
      [/posts] and a selected post ([Rerender]).

    [SplitFrontmatterMarkdown] sits in a file of its own in the same
    package.

    Go's [int] is modelled as [Z] with 64-bit wrap-around, strings as
    [string] (sequences of bytes), the package-level variables as an
    explicit [World] threaded through a small state-and-panic monad, and
    the charm libraries (glamour, lipgloss, bubbles) as interfaces. *)

From Stdlib Require Import ZArith List Bool Lia Ascii String.
From stdpp Require Import gmap strings.
Import ListNotations.
Local Open Scope string_scope.
Local Open Scope Z_scope.

(** ** Go's [int]: 64-bit two's complement *)

Module GoInt.

Definition min_int : Z := - 2 ^ 63.
Definition max_int : Z := 2 ^ 63 - 1.

(** Reduction of a mathematical integer to its 64-bit representative. *)
Definition wrap (z : Z) : Z := (z + 2 ^ 63) mod 2 ^ 64 - 2 ^ 63.

Definition sub (a b : Z) : Z := wrap (a - b).
(** Go's [/] truncates toward zero. *)
Definition div (a b : Z) : Z := wrap (Z.quot a b).

Definition in_range (z : Z) : Prop := min_int <= z <= max_int.

End GoInt.

(** ** Outcomes of a Go call: a value or a run-time panic *)

Inductive panic : Type :=
| SliceBoundsOutOfRange
| IndexOutOfRange
| NilDereference
| TypeAssertion.

Inductive outcome (A : Type) : Type :=
| Returns (a : A)
| Panics (p : panic).
Arguments Returns {A} a.
Arguments Panics {A} p.

(** ** The part of Go's [strings] package and slicing the program uses *)

Module Strings.

Definition newline : ascii := Ascii.ascii_of_nat 10.
Definition colon : ascii := Ascii.ascii_of_nat 58.
Definition nl : string := String newline EmptyString.

Definition len (s : string) : Z := Z.of_nat (String.length s).

(** [strings.Split(s, sep)] for a one-byte separator, the only kind the
    program passes.  The result always has at least one element. *)
Fixpoint Split (s : string) (sep : ascii) : list string :=
  match s with
  | EmptyString => [EmptyString]
  | String c s' =>
      if Ascii.eqb c sep then EmptyString :: Split s' sep
      else match Split s' sep with
           | [] => [String c EmptyString]
           | first :: others => String c first :: others
           end
  end.

(** [strings.Join(elems, sep)]. *)
Fixpoint Join (elems : list string) (sep : string) : string :=
  match elems with
  | [] => EmptyString
  | [e] => e
  | e :: rest => e +:+ sep +:+ Join rest sep
  end.

(** [strings.HasPrefix(s, prefix)]. *)
Definition HasPrefix (s pre : string) : bool := String.prefix pre s.

(** [strings.Contains(s, sep)] for a one-byte [sep]. *)
Fixpoint Contains (s : string) (sep : ascii) : bool :=
  match s with
  | EmptyString => false
  | String c s' => Ascii.eqb c sep || Contains s' sep
  end.

(** [strings.Count(s, sep)] for a one-byte [sep]. *)
Fixpoint Count (s : string) (sep : ascii) : Z :=
  match s with
  | EmptyString => 0
  | String c s' => (if Ascii.eqb c sep then 1 else 0) + Count s' sep
  end.

Fixpoint drop (n : nat) (s : string) : string :=
  match n, s with
  | O, _ => s
  | S n', String _ s' => drop n' s'
  | S _, EmptyString => EmptyString
  end.

Fixpoint take (n : nat) (s : string) : string :=
  match n, s with
  | O, _ => EmptyString
  | S n', String c s' => String c (take n' s')
  | S _, EmptyString => EmptyString
  end.

(** [strings.TrimPrefix(s, prefix)]. *)
Definition TrimPrefix (s pre : string) : string :=
  if HasPrefix s pre then drop (String.length pre) s else s.

Fixpoint HasSuffix (s suf : string) : bool :=
  String.eqb s suf ||
  match s with
  | EmptyString => false
  | String _ s' => HasSuffix s' suf
  end.

(** [strings.TrimSuffix(s, suffix)]. *)
Definition TrimSuffix (s suf : string) : string :=
  if HasSuffix s suf
  then take (String.length s - String.length suf) s
  else s.

(** [strings.Repeat(s, count)] for [count >= 0] (every call site clamps
    its count with [max(0, _)]). *)
Definition Repeat (s : string) (count : Z) : string :=
  Nat.iter (Z.to_nat count) (fun acc => s +:+ acc) EmptyString.

(** The six ASCII bytes Go's [asciiSpace] table marks as white space. *)
Definition isAsciiSpace (c : ascii) : bool :=
  let n := Ascii.nat_of_ascii c in
  ((9 <=? n) && (n <=? 13))%nat || (n =? 32)%nat.

Fixpoint trimLeft (s : string) : string :=
  match s with
  | EmptyString => EmptyString
  | String c s' => if isAsciiSpace c then trimLeft s' else s
  end.

Fixpoint trimRight (s : string) : string :=
  match s with
  | EmptyString => EmptyString
  | String c s' =>
      match trimRight s' with
      | EmptyString => if isAsciiSpace c then EmptyString
                       else String c EmptyString
      | kept => String c kept
      end
  end.

(** [strings.TrimSpace(s)] on its ASCII path: leading and trailing
    tab, line feed, vertical tab, form feed, carriage return and space
    are removed.  Go also removes multi-byte Unicode white space
    (U+0085, U+00A0, U+2000...), which is left in place here; no key or
    value examined below contains a byte above 127. *)
Definition TrimSpace (s : string) : string := trimRight (trimLeft s).

(** [xs[lo:]] on a slice: panics unless [0 <= lo <= len(xs)]. *)
Definition sliceFrom {A} (xs : list A) (lo : Z) : outcome (list A) :=
  if (0 <=? lo) && (lo <=? Z.of_nat (length xs))
  then Returns (List.skipn (Z.to_nat lo) xs)
  else Panics SliceBoundsOutOfRange.

(** [s[:hi]] on a string: panics unless [0 <= hi <= len(s)]. *)
Definition sliceTo (s : string) (hi : Z) : outcome string :=
  if (0 <=? hi) && (hi <=? len s)
  then Returns (take (Z.to_nat hi) s)
  else Panics SliceBoundsOutOfRange.

(** [xs[i]] on a slice: panics unless [0 <= i < len(xs)]. *)
Definition index {A} (xs : list A) (i : Z) : outcome A :=
  if 0 <=? i
  then match List.nth_error xs (Z.to_nat i) with
       | Some x => Returns x
       | None => Panics IndexOutOfRange
       end
  else Panics IndexOutOfRange.

End Strings.

(** ** frontmatter.go *)

Module Frontmatter.
Import Strings.

(** What a call leaves behind: the two results and the lines written to
    standard output by [fmt.Println]. *)
Record split : Type := mkSplit {
  md : string;
  fm : gmap string string;
  printed : list string
}.

(** The body of [for i, line := range lines] from index [i] on, [rest]
    being [lines[i:]].  [None] means the loop ran to its end without
    returning.  [i] is an index into [lines], so [i + 2] is computed
    without wrap-around. *)
Fixpoint scan (lines rest : list string) (i : Z) (acc : gmap string string)
  : outcome (option split * gmap string string) :=
  match rest with
  | [] => Returns (None, acc)
  | line :: rest' =>
      if i =? 0 then scan lines rest' (i + 1) acc
      else if HasPrefix line "---" then
        match sliceFrom lines (i + 2) with
        | Returns body => Returns (Some (mkSplit (Join body nl) acc []), acc)
        | Panics p => Panics p
        end
      else if Contains line colon then
        let parts := Split line colon in
        match index parts 0, index parts 1 with
        | Returns k, Returns v =>
            scan lines rest' (i + 1) (<[TrimSpace k := TrimSpace v]> acc)
        | Panics p, _ | _, Panics p => Panics p
        end
      else scan lines rest' (i + 1) acc
  end.

(** Where the loop stops: the index of the first line after line 0
    that starts with the delimiter, counting from [i] at the head of
    [rest]. *)
Fixpoint closingDelimiter (rest : list string) (i : Z) : option Z :=
  match rest with
  | [] => None
  | line :: rest' =>
      if negb (i =? 0) && HasPrefix line "---" then Some i
      else closingDelimiter rest' (i + 1)
  end.

Definition SplitFrontmatterMarkdown (content : string) : outcome split :=
  let lines := Split content newline in
  match index lines 0 with
  | Panics p => Panics p
  | Returns first =>
      let fallthrough acc :=
        Returns (mkSplit content acc ["no frontmatter found"]) in
      if HasPrefix first "---" then
        match scan lines lines 0 ∅ with
        | Panics p => Panics p
        | Returns (Some r, _) => Returns r
        | Returns (None, acc) => fallthrough acc
        end
      else fallthrough ∅
  end.

(** What one pass of the loop body does to the map (lines 26-31): a line
    with a colon stores its first two pieces, any other line nothing. *)
Definition addLine (acc : gmap string string) (line : string)
  : gmap string string :=
  if Contains line colon then
    match Split line colon with
    | k :: v :: _ => <[TrimSpace k := TrimSpace v]> acc
    | _ => acc
    end
  else acc.

(** The map after the loop has gone through [ls]. *)
Definition collect (ls : list string) (acc : gmap string string)
  : gmap string string :=
  fold_left addLine ls acc.

End Frontmatter.

(** ** The charm libraries at their boundary

    None of glamour, lipgloss, bubbles or bubbletea is part of the
    repository.  The viewport widget is modelled on the public fields
    and the three methods the program calls; styling, joining and
    markdown conversion are interfaces with no assumed behaviour. *)

Module Viewport.
Import Strings.

(** [viewport.Model]: its exported fields and the split lines that
    [SetContent] stores. *)
Record Model : Type := mkModel {
  Width : Z;
  Height : Z;
  YOffset : Z;
  YPosition : Z;
  HighPerformanceRendering : bool;
  lines : list string
}.

Definition New (width height : Z) : Model :=
  mkModel width height 0 0 false [].

Definition withWidth (w : Z) (m : Model) : Model :=
  mkModel w (Height m) (YOffset m) (YPosition m)
          (HighPerformanceRendering m) (lines m).
Definition withHeight (h : Z) (m : Model) : Model :=
  mkModel (Width m) h (YOffset m) (YPosition m)
          (HighPerformanceRendering m) (lines m).
Definition withYOffset (y : Z) (m : Model) : Model :=
  mkModel (Width m) (Height m) y (YPosition m)
          (HighPerformanceRendering m) (lines m).
Definition withYPosition (y : Z) (m : Model) : Model :=
  mkModel (Width m) (Height m) (YOffset m) y
          (HighPerformanceRendering m) (lines m).
Definition withHighPerformanceRendering (b : bool) (m : Model) : Model :=
  mkModel (Width m) (Height m) (YOffset m) (YPosition m) b (lines m).
Definition withLines (ls : list string) (m : Model) : Model :=
  mkModel (Width m) (Height m) (YOffset m) (YPosition m)
          (HighPerformanceRendering m) ls.

Definition clamp (v low high : Z) : Z :=
  let '(low, high) := if high <? low then (high, low) else (low, high) in
  Z.min high (Z.max low v).

Definition maxYOffset (m : Model) : Z :=
  Z.max 0 (GoInt.sub (Z.of_nat (length (lines m))) (Height m)).

Definition SetYOffset (n : Z) (m : Model) : Model :=
  withYOffset (clamp n 0 (maxYOffset m)) m.

Definition GotoBottom (m : Model) : Model := SetYOffset (maxYOffset m) m.

(** Line endings are normalised before splitting. *)
Fixpoint dropCR (s : string) : string :=
  match s with
  | String c ((String d _) as s') =>
      if Ascii.eqb c (Ascii.ascii_of_nat 13) && Ascii.eqb d newline
      then dropCR s' else String c (dropCR s')
  | _ => s
  end.

Definition SetContent (s : string) (m : Model) : Model :=
  let m := withLines (Split (dropCR s) newline) m in
  if YOffset m >? Z.of_nat (length (lines m)) - 1 then GotoBottom m else m.

End Viewport.

Module Tea.

(** [tea.Cmd] values the program builds.  [SyncScrollArea] carries the
    viewport it was computed from by value; [Foreign] stands for the
    commands a widget's own [Update] hands back. *)
#[warnings="-register-all"] Inductive Cmd : Type :=
| Quit
| SyncScrollArea (snapshot : Viewport.Model)
| Batch (cmds : list Cmd)
| Foreign (tag : string).

(** [tea.Batch(cmds...)]: nil commands are dropped, and a batch of
    nothing is nil. *)
Definition mkBatch (cmds : list (option Cmd)) : option Cmd :=
  match omap id cmds with
  | [] => None
  | valid => Some (Batch valid)
  end.

(** Does running the command deliver [tea.QuitMsg], ending the
    session? *)
Fixpoint quits (c : Cmd) : bool :=
  match c with
  | Quit => true
  | Batch cmds => existsb quits cmds
  | _ => false
  end.

(** Does the command carry a viewport synchronisation? *)
Fixpoint syncs (c : Cmd) : bool :=
  match c with
  | SyncScrollArea _ => true
  | Batch cmds => existsb syncs cmds
  | _ => false
  end.

(** [viewport.Sync(m)]. *)
Definition Sync (m : Viewport.Model) : option Cmd :=
  match Viewport.lines m with
  | [] => None
  | _ => Some (SyncScrollArea m)
  end.

Inductive Msg : Type :=
| WindowSizeMsg (Width Height : Z)
| KeyMsg (key : string)
| OtherMsg.

End Tea.

(** [lipgloss.Position]: [Left] and [Top] are the same constant, so are
    [Right] and [Bottom]. *)
Inductive Position : Type := Top | Center | Bottom.
Definition Left : Position := Top.

(** A word-wrapping markdown renderer, told apart by its wrap width (the
    style comes from the environment, set once in [main]). *)
Record TermRenderer : Type := mkRenderer { wordWrap : Z }.

Class Glamour : Type := {
  (** [glamour.NewTermRenderer(WithEnvironmentConfig(), WithWordWrap(w))]:
      [Some msg] is a failure with that error text. *)
  newTermRendererError : Z -> option string;
  (** [TermRenderer.Render]: the output and the error, if any. *)
  Render : TermRenderer -> string -> string * option string
}.

Class Lipgloss : Type := {
  ApplyNormal : string -> string;
  ApplySubtle : string -> string;
  ApplyMuted : string -> string;
  ApplyHighlight : string -> string;
  JoinVertical : Position -> list string -> string;
  JoinHorizontal : Position -> list string -> string;
  Place : Z -> Z -> Position -> Position -> string -> string;
  (** [NewStyle().Width(w).Height(h).Render()], an empty box. *)
  blank : Z -> Z -> string;
  (** [NewStyle().Width(w).Height(h).Align(x, y).Render(s)]. *)
  frame : Z -> Z -> Position -> Position -> string -> string;
  (** The bordered one-row table of the header, of total width [w], its
      cells of the given widths. *)
  headerTable : Z -> list (Z * string) -> string;
  (** The top-bordered, bottom-aligned box of the footer. *)
  footerBox : Z -> Z -> string -> string
}.

Class Bubbles : Type := {
  (** [viewport.Model.Update] on a key press. *)
  viewportUpdate : Viewport.Model -> Tea.Msg -> Viewport.Model * option Tea.Cmd
}.

(** A Go [(value, error)] pair of which only one side is used. *)
Inductive result (A : Type) : Type :=
| Ok (a : A)
| Err (msg : string).
Arguments Ok {A} a.
Arguments Err {A} msg.

Record DirEntry : Type := mkDirEntry { Name : string; IsDir : bool }.

Class FileSystem : Type := {
  ReadFile : string -> result string;
  ReadDir : string -> result (list DirEntry)
}.

(** Observable calls, oldest first. *)
Inductive Event : Type :=
| EvNewTermRenderer (w : Z)
| EvRender (r : TermRenderer) (text : string)
| EvPrintln (s : string)
| EvReadFile (path : string).

Definition isRender (e : Event) : bool :=
  match e with EvRender _ _ => true | _ => false end.

(** How many times the markdown converter ran in a trace. *)
Definition conversions (t : list Event) : nat :=
  length (List.filter isRender t).

(** ** A state monad over the package-level variables, with panics *)

Definition M (W A : Type) : Type := W -> outcome (A * W).

Definition ret {W A} (a : A) : M W A := fun w => Returns (a, w).

Definition bind {W A B} (c : M W A) (k : A -> M W B) : M W B :=
  fun w => match c w with
           | Returns (a, w') => k a w'
           | Panics p => Panics p
           end.

Definition gets {W A} (f : W -> A) : M W A := fun w => Returns (f w, w).

Definition modify {W} (f : W -> W) : M W unit := fun w => Returns (tt, f w).

Definition raise {W A} (p : panic) : M W A := fun _ => Panics p.

(** [for _, x := range xs { body(x) }]. *)
Fixpoint forEach {W A} (body : A -> M W unit) (xs : list A) : M W unit :=
  match xs with
  | [] => ret tt
  | x :: rest => bind (body x) (fun _ => forEach body rest)
  end.

(** The computations are written with stdpp's monad notation:
    [x ← c; k], [c;; k] and ['(a, b) ← c; k]. *)
#[global] Instance M_ret {W} : MRet (M W) := fun A a => ret a.
#[global] Instance M_bind {W} : MBind (M W) := fun A B k c => bind c k.

(** ** main.go, landing-page revision (lines 1-382) *)

Module Landing.
Import Strings.

Definition maxWidth : Z := 80.
Definition useHighPerformanceRenderer : bool := true.
Definition headerHeight : Z := 4.
Definition footerHeight : Z := 4.

Definition top : string := "# hey, i'm max

I study computer science and philosophy at Suffolk University, and design and develop web tools in my spare time. I can't comment on their usefulness, but they're hopefully a little cool.

## Recent Projects".

Definition prog1 : string := "### Hypersearch

Hypersearch is a Chromium extension that provides power-user search tools. Slim down and streamline Google search result pages by filtering out spam results and blocking unnecessary info cards.".

Definition prog2 : string := "### asciish

Asciish is a Vite/Rollup extension that provides build-time Unicode injection using shortcodes. This helps to keep source code UTF-8 compliant while allowing for the use of complex Unicode characters on a webpage.".

Definition prog3 : string := "### escape-time

Escape time is a small WebGL fractal explorer thrown together over a weekend for a Suffolk University Math Society presentation. It supports a few different fractals and was mostly a WebGL learning experience.".

Definition prog4 : string := "### Clippy

Clippy.mov is a web-based video editor built using FFmpeg.wasm. I stopped developing it after the new school semester started, and recently came back to it. It's in active development.".

Definition bot : string := "## Want to get in touch?

Thanks, that's awesome! :D
".

Record model : Type := mkModel {
  loaded : bool;
  viewport : Viewport.Model;
  fitWidth : Z;
  cmdWidth : Z;
  cmdHeight : Z
}.

Definition withLoaded (b : bool) (m : model) : model :=
  mkModel b (viewport m) (fitWidth m) (cmdWidth m) (cmdHeight m).
Definition withViewport (v : Viewport.Model) (m : model) : model :=
  mkModel (loaded m) v (fitWidth m) (cmdWidth m) (cmdHeight m).
Definition withFitWidth (w : Z) (m : model) : model :=
  mkModel (loaded m) (viewport m) w (cmdWidth m) (cmdHeight m).
Definition withCmdWidth (w : Z) (m : model) : model :=
  mkModel (loaded m) (viewport m) (fitWidth m) w (cmdHeight m).
Definition withCmdHeight (h : Z) (m : model) : model :=
  mkModel (loaded m) (viewport m) (fitWidth m) (cmdWidth m) h.

(** The package-level variables, and the trace of library calls. *)
Record World : Type := mkWorld {
  glamourRenderer : option TermRenderer;
  projRender1 : string;
  projRender2 : string;
  projRender3 : string;
  projRender4 : string;
  flex : string;
  lastFitWidth : Z;
  trace : list Event
}.

Definition initWorld : World := mkWorld None "" "" "" "" "" 0 [].

Definition setGlamourRenderer (r : TermRenderer) (w : World) : World :=
  mkWorld (Some r) (projRender1 w) (projRender2 w) (projRender3 w)
          (projRender4 w) (flex w) (lastFitWidth w) (trace w).
Definition setProjRenders (p1 p2 p3 p4 : string) (w : World) : World :=
  mkWorld (glamourRenderer w) p1 p2 p3 p4 (flex w) (lastFitWidth w) (trace w).
Definition setFlex (f : string) (w : World) : World :=
  mkWorld (glamourRenderer w) (projRender1 w) (projRender2 w) (projRender3 w)
          (projRender4 w) f (lastFitWidth w) (trace w).
Definition setLastFitWidth (n : Z) (w : World) : World :=
  mkWorld (glamourRenderer w) (projRender1 w) (projRender2 w) (projRender3 w)
          (projRender4 w) (flex w) n (trace w).
Definition emit (e : Event) (w : World) : World :=
  mkWorld (glamourRenderer w) (projRender1 w) (projRender2 w) (projRender3 w)
          (projRender4 w) (flex w) (lastFitWidth w) (trace w ++ [e])%list.

(** The two-column branch of [RerenderContent] (lines 217-228), from the
    values [projRender1..4] hold on entry. *)
Record columns : Type := mkColumns {
  third : string;
  fourth : string;
  rowAHeight : Z;
  rowBHeight : Z;
  RowA : string;
  RowB : string
}.

Section Program.
Context `{Glamour} `{Lipgloss} `{Bubbles}.

(** [term.GetSize] of the server's standard output supplies
    [physWidth] and [physHeight]. *)
Definition teaHandler (physWidth physHeight : Z) : model :=
  let computedWidth := Z.min physWidth maxWidth in
  let vp := Viewport.New physWidth
              (GoInt.sub (GoInt.sub physHeight headerHeight) footerHeight) in
  let vp := Viewport.withHighPerformanceRendering
              useHighPerformanceRenderer vp in
  mkModel false vp computedWidth 0 0.

Definition newTermRenderer (w : Z) : M World (option TermRenderer) :=
  modify (emit (EvNewTermRenderer w));;
  match newTermRendererError w with
  | Some msg => modify (emit (EvPrintln msg));; ret None
  | None => ret (Some (mkRenderer w))
  end.

Definition render (r : TermRenderer) (text : string) : M World string :=
  modify (emit (EvRender r text));;
  ret (fst (Render r text)).

Definition dualColumns (p1 p2 p3 p4 : string) : columns :=
  let p3 := TrimSuffix p2 nl in
  let p4 := TrimSuffix p4 nl in
  let rowAHeight := Z.max (Count p1 newline) (Count p2 newline) in
  let gapA := blank 4 rowAHeight in
  let rowBHeight := Z.max (Count p3 newline) (Count p4 newline) in
  let gapB := blank 4 rowBHeight in
  let RowA := JoinHorizontal Left [p1; gapA; p2] in
  let RowB := JoinHorizontal Left [p3; gapB; p4] in
  mkColumns p3 p4 rowAHeight rowBHeight RowA RowB.

(** Lines 201-231: the four project blocks are rendered with [renderer],
    trimmed and joined into [flex]. *)
Definition renderProjects (m : model) (renderer : TermRenderer)
  : M World unit :=
  p1 ← render renderer prog1;
  p2 ← render renderer prog2;
  p3 ← render renderer prog3;
  p4 ← render renderer prog4;
  let p1 := TrimSuffix (TrimPrefix p1 nl) nl in
  let p2 := TrimSuffix (TrimPrefix p2 nl) nl in
  let p3 := TrimSuffix (TrimPrefix p3 nl) nl in
  let p4 := TrimSuffix (TrimPrefix p4 nl) nl in
  if fitWidth m <? 80 then
    let p4 := TrimSuffix p4 nl in
    modify (setProjRenders p1 p2 p3 p4);;
    modify (setFlex (JoinVertical Left [p1; p2; p3; p4]))
  else
    let c := dualColumns p1 p2 p3 p4 in
    modify (setProjRenders p1 p2 (third c) (fourth c));;
    modify (setFlex (JoinVertical Left [RowA c; RowB c])).

(** Lines 175-232, the [needsNewTerm] block.  The result is [true] when
    the block left the function through [return m, tea.Quit]. *)
Definition newTerm (m : model) : M World bool :=
  made ← newTermRenderer (fitWidth m);
  match made with
  | None => ret true
  | Some renderer =>
      modify (setGlamourRenderer renderer);;
      if fitWidth m >? 76 then
        made ← newTermRenderer (GoInt.sub (GoInt.div (fitWidth m) 2) 4);
        match made with
        | None => ret true
        | Some renderer => renderProjects m renderer;; ret false
        end
      else renderProjects m renderer;; ret false
  end.

Definition RerenderContent (m : model) (needsNewFile needsNewTerm : bool)
  : M World (model * option Tea.Cmd) :=
  let m := withViewport
             (Viewport.withHeight
                (GoInt.sub (GoInt.sub (cmdHeight m) headerHeight) footerHeight)
                (viewport m)) m in
  quit ← (if needsNewTerm then newTerm m else ret false);
  if (quit : bool) then ret (m, Some Tea.Quit)
  else
    current ← gets glamourRenderer;
    match current with
    | None => raise NilDereference
    | Some r =>
        topRender ← render r top;
        botRender ← render r bot;
        let topRender := TrimPrefix topRender nl in
        let botRender := TrimSuffix botRender nl in
        let contactA :=
          Place 8 1 Left Center (ApplySubtle "email") +:+ ApplyMuted "•"
          +:+ " " +:+ ApplyNormal "max@mmyron.com" +:+ nl in
        let contactB :=
          Place 8 1 Left Center (ApplySubtle "twitter") +:+ ApplyMuted "•"
          +:+ " " +:+ ApplyNormal "@mmorenthal" +:+ nl in
        let contactC :=
          Place 8 1 Left Center (ApplySubtle "github") +:+ ApplyMuted "•"
          +:+ " " +:+ ApplyNormal "maxmmyron" +:+ nl in
        fl ← gets flex;
        let cmb := JoinVertical Top [topRender; fl; botRender;
                                     contactA; contactB; contactC] in
        if useHighPerformanceRenderer then
          let container := Place (cmdWidth m) (Viewport.Height (viewport m))
                                 Center Top cmb in
          let m := withViewport (Viewport.SetContent container (viewport m)) m in
          ret (m, Tea.Sync (viewport m))
        else
          let m := withViewport (Viewport.SetContent cmb (viewport m)) m in
          ret (m, None)
    end.

Definition Init (m : model) : option Tea.Cmd := None.

Definition Update (m : model) (msg : Tea.Msg)
  : M World (model * option Tea.Cmd) :=
  match msg with
  | Tea.WindowSizeMsg Width Height =>
      modify (setLastFitWidth (fitWidth m));;
      let m := withFitWidth (Z.min Width maxWidth) m in
      let m := if fitWidth m <? 80
               then withFitWidth (GoInt.sub (fitWidth m) 4) m else m in
      let m := withViewport
                 (Viewport.withHeight
                    (GoInt.sub (GoInt.sub Height headerHeight) footerHeight)
                    (viewport m)) m in
      let m := withCmdWidth Width m in
      let m := withCmdHeight Height m in
      '(m, cmds) ←
        (if negb (loaded m) then
           let m := withViewport
                      (Viewport.withHighPerformanceRendering
                         useHighPerformanceRenderer (viewport m)) m in
           let m := withLoaded true m in
           '(m, cmd) ← RerenderContent m true true;
           ret (m, [cmd])
         else ret (m, []));
      last ← gets lastFitWidth;
      '(m, cmd) ←
        (if negb (last =? fitWidth m)
         then RerenderContent m false true
         else RerenderContent m false false);
      let cmds := (cmds ++ [cmd])%list in
      if useHighPerformanceRenderer then
        let m := withViewport
                   (Viewport.withYPosition (headerHeight + 1) (viewport m)) m in
        let cmds := (cmds ++ [Tea.Sync (viewport m)])%list in
        ret (m, Tea.mkBatch cmds)
      else ret (m, Tea.mkBatch cmds)
  | Tea.KeyMsg key =>
      if String.eqb key "q" || String.eqb key "ctrl+c"
      then ret (m, Some Tea.Quit)
      else
        let '(vp, cmd) := viewportUpdate (viewport m) msg in
        let m := withViewport vp m in
        let cmds := match cmd with Some _ => [cmd] | None => [] end in
        if 0 <? Z.of_nat (length cmds)
        then ret (m, Tea.mkBatch cmds) else ret (m, None)
  | Tea.OtherMsg => ret (m, None)
  end.

(** [HeaderView]: the slice [content[:n]] of the truncation is the one
    place where it can panic. *)
Definition HeaderView (m : model) : outcome string :=
  let altLinkWidth := 0 in
  let linkPadding := 2 in
  let content := ApplyNormal "mmyron.com/" in
  let mainWidth := GoInt.sub (fitWidth m) altLinkWidth in
  let mainContentWidth :=
    GoInt.sub (GoInt.sub mainWidth 2) (2 * linkPadding) in
  let truncated :=
    if len content >? mainContentWidth
    then match sliceTo content (GoInt.sub mainContentWidth 4) with
         | Returns cut => Returns (cut +:+ "...")
         | Panics p => Panics p
         end
    else Returns content in
  match truncated with
  | Panics p => Panics p
  | Returns content =>
      let t := headerTable (fitWidth m) [(mainContentWidth, content)] in
      Returns (frame (cmdWidth m) headerHeight Center Top t)
  end.

Definition FooterView (m : model) : string :=
  let scrollHelp := ApplyNormal "↑ /↓" +:+ " " +:+ ApplySubtle "scroll" in
  let quitHelp := ApplyNormal "q" +:+ " " +:+ ApplySubtle "quit" in
  let help := scrollHelp +:+ "  " +:+ ApplyMuted "•" +:+ "  " +:+ quitHelp in
  let helpSection :=
    Place (fitWidth m) (footerHeight - 1) Center Center help in
  let borderContainer :=
    footerBox (fitWidth m) (footerHeight - 1) helpSection in
  Place (cmdWidth m) footerHeight Center Bottom borderContainer.

Definition View (m : model) : outcome string :=
  match HeaderView m with
  | Panics p => Panics p
  | Returns header =>
      let footer := FooterView m in
      let inner :=
        Repeat nl (Z.max 0 (GoInt.sub (Viewport.Height (viewport m)) 1)) in
      let combinedVp := JoinVertical Top [header; inner; footer] in
      Returns (frame (cmdWidth m) (cmdHeight m) Center Top combinedVp)
  end.

End Program.

End Landing.


(** ** main.go, posts revision (lines 384-816) *)

Module Posts.
Import Strings.

Definition maxWidth : Z := 80.
Definition useHighPerformanceRenderer : bool := true.
Definition headerHeight : Z := 4.
Definition footerHeight : Z := 4.

Record post : Type := mkPost {
  title : string;
  path : string;
  desc : string;
  md : string
}.

Definition Title (p : post) : string := title p.
Definition Path (p : post) : string := path p.
Definition Description (p : post) : string := desc p.
Definition mdContent (p : post) : string := md p.
Definition FilterValue (p : post) : string := title p.

(** [list.Model] of bubbles, as far as the program touches it: the
    items, the cursor and the size. *)
Record ListModel : Type := mkList {
  items : list post;
  cursor : Z;
  listWidth : Z;
  listHeight : Z;
  listTitle : string;
  showHelp : bool
}.

Definition listNew (its : list post) (width height : Z) : ListModel :=
  mkList its 0 width height "List" true.
Definition SetWidth (w : Z) (l : ListModel) : ListModel :=
  mkList (items l) (cursor l) w (listHeight l) (listTitle l) (showHelp l).
Definition SetHeight (h : Z) (l : ListModel) : ListModel :=
  mkList (items l) (cursor l) (listWidth l) h (listTitle l) (showHelp l).
Definition SetTitle (t : string) (l : ListModel) : ListModel :=
  mkList (items l) (cursor l) (listWidth l) (listHeight l) t (showHelp l).
Definition SetShowHelp (b : bool) (l : ListModel) : ListModel :=
  mkList (items l) (cursor l) (listWidth l) (listHeight l) (listTitle l) b.

(** [m.posts.SelectedItem()]: nil when the cursor is on no item. *)
Definition SelectedItem (l : ListModel) : option post :=
  if (cursor l <? 0) || (Z.of_nat (length (items l)) <=? cursor l)
  then None
  else List.nth_error (items l) (Z.to_nat (cursor l)).

Class BubblesList : Type := {
  listUpdate : ListModel -> Tea.Msg -> ListModel * option Tea.Cmd;
  listView : ListModel -> string
}.

Record model : Type := mkModel {
  loaded : bool;
  viewport : Viewport.Model;
  currentPath : string;
  content : string;
  fitWidth : Z;
  posts : ListModel;
  cmdWidth : Z;
  cmdHeight : Z
}.

Definition withLoaded (b : bool) (m : model) : model :=
  mkModel b (viewport m) (currentPath m) (content m) (fitWidth m) (posts m)
          (cmdWidth m) (cmdHeight m).
Definition withViewport (v : Viewport.Model) (m : model) : model :=
  mkModel (loaded m) v (currentPath m) (content m) (fitWidth m) (posts m)
          (cmdWidth m) (cmdHeight m).
Definition withCurrentPath (p : string) (m : model) : model :=
  mkModel (loaded m) (viewport m) p (content m) (fitWidth m) (posts m)
          (cmdWidth m) (cmdHeight m).
Definition withContent (c : string) (m : model) : model :=
  mkModel (loaded m) (viewport m) (currentPath m) c (fitWidth m) (posts m)
          (cmdWidth m) (cmdHeight m).
Definition withFitWidth (w : Z) (m : model) : model :=
  mkModel (loaded m) (viewport m) (currentPath m) (content m) w (posts m)
          (cmdWidth m) (cmdHeight m).
Definition withPosts (l : ListModel) (m : model) : model :=
  mkModel (loaded m) (viewport m) (currentPath m) (content m) (fitWidth m) l
          (cmdWidth m) (cmdHeight m).
Definition withCmdWidth (w : Z) (m : model) : model :=
  mkModel (loaded m) (viewport m) (currentPath m) (content m) (fitWidth m)
          (posts m) w (cmdHeight m).
Definition withCmdHeight (h : Z) (m : model) : model :=
  mkModel (loaded m) (viewport m) (currentPath m) (content m) (fitWidth m)
          (posts m) (cmdWidth m) h.

(** The package-level variables, and the trace of library calls. *)
Record World : Type := mkWorld {
  glamourRenderer : option TermRenderer;
  allPosts : list post;
  lastFitWidth : Z;
  trace : list Event
}.

Definition initWorld : World := mkWorld None [] 0 [].

Definition setGlamourRenderer (r : TermRenderer) (w : World) : World :=
  mkWorld (Some r) (allPosts w) (lastFitWidth w) (trace w).
Definition appendPost (p : post) (w : World) : World :=
  mkWorld (glamourRenderer w) (allPosts w ++ [p])%list (lastFitWidth w)
          (trace w).
Definition setLastFitWidth (n : Z) (w : World) : World :=
  mkWorld (glamourRenderer w) (allPosts w) n (trace w).
Definition emit (e : Event) (w : World) : World :=
  mkWorld (glamourRenderer w) (allPosts w) (lastFitWidth w)
          (trace w ++ [e])%list.

Section Program.
Context `{Glamour} `{Lipgloss} `{Bubbles} `{BubblesList} `{FileSystem}.

Definition println (s : string) : M World unit := modify (emit (EvPrintln s)).

Definition readFile (name : string) : M World (result string) :=
  modify (emit (EvReadFile name));;
  ret (ReadFile name).

(** One iteration of [for _, file := range files] in [teaHandler]. *)
Definition loadPost (file : DirEntry) : M World unit :=
  if IsDir file then ret tt
  else
    read ← readFile ("fs/posts/" +:+ Name file);
    text ← match read with
           | Ok bytes => ret bytes
           | Err msg => println msg;; ret ""
           end;
    match Frontmatter.SplitFrontmatterMarkdown text with
    | Panics p => raise p
    | Returns parsed =>
        forEach println (Frontmatter.printed parsed);;
        let p := mkPost "" "" "" (Frontmatter.md parsed) in
        let p := match Frontmatter.fm parsed !! "title" with
                 | Some t => mkPost t (path p) (desc p) (md p)
                 | None => p
                 end in
        let p := match Frontmatter.fm parsed !! "subtitle" with
                 | Some d => mkPost (title p) (path p) d (md p)
                 | None => p
                 end in
        let p := mkPost (title p) ("fs/posts" +:+ Name file) (desc p) (md p) in
        modify (appendPost p)
    end.

Definition teaHandler (physWidth physHeight : Z) : M World model :=
  let computedWidth := Z.min physWidth maxWidth in
  let vp := Viewport.New physWidth
              (GoInt.sub (GoInt.sub physHeight headerHeight) footerHeight) in
  let vp := Viewport.withHighPerformanceRendering
              useHighPerformanceRenderer vp in
  let m := mkModel false vp "/root" "" computedWidth (listNew [] 0 0) 0 0 in
  files ← match ReadDir "fs/posts" with
          | Ok entries => ret entries
          | Err msg => println msg;; ret []
          end;
  forEach loadPost files;;
  all ← gets allPosts;
  let l := listNew all computedWidth
             (GoInt.sub (GoInt.sub physHeight headerHeight) footerHeight) in
  let l := SetShowHelp false (SetTitle "Recent Posts" l) in
  ret (withPosts l m).

Definition newTermRenderer (w : Z) : M World (option TermRenderer) :=
  modify (emit (EvNewTermRenderer w));;
  match newTermRendererError w with
  | Some msg => println msg;; ret None
  | None => ret (Some (mkRenderer w))
  end.

Definition render (r : TermRenderer) (text : string)
  : M World (string * option string) :=
  modify (emit (EvRender r text));;
  ret (Render r text).

(** Lines 625-643 of [Rerender]: convert [m.content] and hand it to the
    viewport. *)
Definition renderContent (m : model) : M World (model * option Tea.Cmd) :=
  current ← gets glamourRenderer;
  match current with
  | None => raise NilDereference
  | Some r =>
      '(rendered, err) ← render r (content m);
      match err with
      | Some msg => println msg;; ret (m, Some Tea.Quit)
      | None =>
          if useHighPerformanceRenderer then
            let container := Place (cmdWidth m) (Viewport.Height (viewport m))
                                   Center Top rendered in
            let m := withViewport
                       (Viewport.SetContent container (viewport m)) m in
            ret (m, Tea.Sync (viewport m))
          else
            let m := withViewport
                       (Viewport.SetContent rendered (viewport m)) m in
            ret (m, None)
      end
  end.

Definition Rerender (m : model) (needsNewFile : bool)
  : M World (model * option Tea.Cmd) :=
  if String.eqb (currentPath m) "/posts" then
    let vp := Viewport.SetYOffset 0 (viewport m) in
    let vp := Viewport.withWidth 0 vp in
    let vp := Viewport.withHeight 0 vp in
    let vp := Viewport.SetContent "" vp in
    let m := withViewport vp m in
    if useHighPerformanceRenderer
    then ret (m, Tea.Sync (viewport m))
    else ret (m, None)
  else
    let m := withViewport
               (Viewport.withHeight
                  (GoInt.sub (GoInt.sub (cmdHeight m) headerHeight)
                             footerHeight)
                  (viewport m)) m in
    made ← newTermRenderer (fitWidth m);
    match made with
    | None => ret (m, Some Tea.Quit)
    | Some renderer =>
        modify (setGlamourRenderer renderer);;
        if needsNewFile then
          file ← readFile ("fs" +:+ currentPath m +:+ ".md");
          match file with
          | Err msg => println msg;; ret (m, Some Tea.Quit)
          | Ok bytes =>
              let m := withContent bytes m in
              let m := withViewport (Viewport.SetYOffset 0 (viewport m)) m in
              renderContent m
          end
        else renderContent m
    end.

Definition Init (m : model) : option Tea.Cmd := None.

(** [if cmd != nil { cmds = append(cmds, cmd) }]. *)
Definition appendIfSet (cmds : list (option Tea.Cmd)) (cmd : option Tea.Cmd)
  : list (option Tea.Cmd) :=
  match cmd with
  | Some _ => (cmds ++ [cmd])%list
  | None => cmds
  end.

(** The [switch msg.String()] of the key branch: the model, the last
    value of [cmd] and the commands gathered so far; [inl] is the [q]
    case, which returns on the spot. *)
Definition onKey (m : model) (msg : Tea.Msg) (key : string)
  : M World ((model * option Tea.Cmd)
             + (model * option Tea.Cmd * list (option Tea.Cmd))) :=
  if String.eqb key "q" then ret (inl (m, Some Tea.Quit))
  else if String.eqb key "p" then
    if String.eqb (currentPath m) "/root" then
      let m := withCurrentPath "/posts" m in
      '(m, cmd) ← Rerender m false;
      ret (inr (m, cmd, appendIfSet [] cmd))
    else ret (inr (m, None, []))
  else if String.eqb key "b" then
    if negb (String.eqb (currentPath m) "/root") then
      let m := withCurrentPath "/root" m in
      '(m, cmd) ← Rerender m true;
      ret (inr (m, cmd, appendIfSet [] cmd))
    else ret (inr (m, None, []))
  else if String.eqb key "enter" then
    if String.eqb (currentPath m) "/posts" then
      match SelectedItem (posts m) with
      | None => raise TypeAssertion
      | Some selected =>
          let newPath := Path selected in
          let m := withCurrentPath newPath m in
          '(m, cmd) ← Rerender m true;
          ret (inr (m, cmd, appendIfSet [] cmd))
      end
    else ret (inr (m, None, []))
  else
    if negb (String.eqb (currentPath m) "/posts") then
      let '(vp, cmd) := viewportUpdate (viewport m) msg in
      ret (inr (withViewport vp m, cmd, []))
    else
      let '(l, cmd) := listUpdate (posts m) msg in
      ret (inr (withPosts l m, cmd, [])).

(** Lines 739-747, after the [switch]. *)
Definition finish (m : model) (cmd : option Tea.Cmd)
    (cmds : list (option Tea.Cmd)) : model * option Tea.Cmd :=
  let cmds := appendIfSet cmds cmd in
  if 0 <? Z.of_nat (length cmds) then (m, Tea.mkBatch cmds) else (m, None).

Definition Update (m : model) (msg : Tea.Msg)
  : M World (model * option Tea.Cmd) :=
  match msg with
  | Tea.WindowSizeMsg Width Height =>
      modify (setLastFitWidth (fitWidth m));;
      let m := withFitWidth (Z.min Width maxWidth) m in
      let m := if negb (String.eqb (currentPath m) "/posts")
               then withViewport
                      (Viewport.withHeight
                         (GoInt.sub (GoInt.sub Height headerHeight)
                                    footerHeight)
                         (viewport m)) m
               else m in
      let m := withCmdWidth Width m in
      let m := withCmdHeight Height m in
      let m := withPosts (SetWidth (fitWidth m) (posts m)) m in
      let m := withPosts
                 (SetHeight
                    (GoInt.sub (GoInt.sub Height headerHeight) footerHeight)
                    (posts m)) m in
      '(m, cmds) ←
        (if negb (loaded m) then
           let m := withViewport
                      (Viewport.withHighPerformanceRendering
                         useHighPerformanceRenderer (viewport m)) m in
           let m := withLoaded true m in
           '(m, cmd) ← Rerender m true;
           ret (m, [cmd])
         else ret (m, []));
      last ← gets lastFitWidth;
      '(m, cmds) ←
        (if negb (last =? fitWidth m) then
           '(m, cmd) ← Rerender m false;
           ret (m, (cmds ++ [cmd])%list)
         else ret (m, cmds));
      if useHighPerformanceRenderer then
        let m := withViewport
                   (Viewport.withYPosition (headerHeight + 1) (viewport m)) m in
        let cmds := (cmds ++ [Tea.Sync (viewport m)])%list in
        ret (m, Tea.mkBatch cmds)
      else ret (m, Tea.mkBatch cmds)
  | Tea.KeyMsg key =>
      step ← onKey m msg key;
      match step with
      | inl done => ret done
      | inr (m, cmd, cmds) => ret (finish m cmd cmds)
      end
  | Tea.OtherMsg => ret (finish m None [])
  end.

(** [HeaderView]: the slice [content[:n]] of the truncation is the one
    place where it can panic. *)
Definition HeaderView (m : model) : outcome string :=
  let altLinkWidth := 11 in
  let linkPadding := 2 in
  let content := currentPath m in
  let sideContent := ApplyHighlight "p" +:+ " " +:+ ApplySubtle "posts" in
  let '(content, sideContent) :=
    if negb (String.eqb content "/root")
    then (content, ApplyHighlight "b" +:+ " " +:+ ApplySubtle "back")
    else ("/", sideContent) in
  let content := ApplyNormal ("mmyron.com" +:+ content) in
  let mainWidth := GoInt.sub (fitWidth m) altLinkWidth in
  let mainContentWidth :=
    GoInt.sub (GoInt.sub mainWidth 2) (2 * linkPadding) in
  let truncated :=
    if len content >? mainContentWidth
    then match sliceTo content (GoInt.sub mainContentWidth 4) with
         | Returns cut => Returns (cut +:+ "...")
         | Panics p => Panics p
         end
    else Returns content in
  match truncated with
  | Panics p => Panics p
  | Returns content =>
      let t := headerTable (fitWidth m)
                 [(mainContentWidth, content); (altLinkWidth, sideContent)] in
      Returns (frame (cmdWidth m) headerHeight Center Top t)
  end.

Definition FooterView (m : model) : string :=
  let scrollHelp := ApplyHighlight "▲/▼" +:+ " " +:+ ApplySubtle "scroll" in
  let quitHelp := ApplyHighlight "q" +:+ " " +:+ ApplySubtle "quit" in
  let help := scrollHelp +:+ "  " +:+ ApplyMuted "•" +:+ "  " +:+ quitHelp in
  let helpSection :=
    Place (fitWidth m) (footerHeight - 1) Center Center help in
  let borderContainer :=
    footerBox (fitWidth m) (footerHeight - 1) helpSection in
  Place (cmdWidth m) footerHeight Center Bottom borderContainer.

Definition View (m : model) : outcome string :=
  match HeaderView m with
  | Panics p => Panics p
  | Returns header =>
      let footer := FooterView m in
      let inner :=
        Repeat nl (Z.max 0 (GoInt.sub (Viewport.Height (viewport m)) 1)) in
      let inner :=
        if String.eqb (currentPath m) "/posts" then
          let listContainer :=
            frame (fitWidth m) (listHeight (posts m)) Left Top
                  (listView (posts m)) in
          Place (cmdWidth m) (listHeight (posts m)) Center Top listContainer
        else inner in
      let combinedVp := JoinVertical Top [header; inner; footer] in
      Returns (frame (cmdWidth m) (cmdHeight m) Center Top combinedVp)
  end.

End Program.

End Posts.

(** ** Unstyled stand-ins for the libraries, to run the program on
    concrete inputs: the converter hands its input back, styles add
    nothing, joins concatenate. *)

Module Plain.
Import Strings.

Definition glamour : Glamour := {|
  newTermRendererError := fun _ => None;
  Render := fun _ text => (text, None)
|}.

Definition lipgloss : Lipgloss := {|
  ApplyNormal := fun s => s;
  ApplySubtle := fun s => s;
  ApplyMuted := fun s => s;
  ApplyHighlight := fun s => s;
  JoinVertical := fun _ blocks => Join blocks nl;
  JoinHorizontal := fun _ blocks => Join blocks "";
  Place := fun _ _ _ _ s => s;
  blank := fun _ h => Repeat nl (h - 1);
  frame := fun _ _ _ _ s => s;
  headerTable := fun _ cells => Join (map snd cells) "|";
  footerBox := fun _ _ s => s
|}.

Definition bubbles : Bubbles := {|
  viewportUpdate := fun v _ => (v, None)
|}.

Definition bubblesList : Posts.BubblesList := {|
  Posts.listUpdate := fun l _ => (l, None);
  Posts.listView := fun l => Join (map Posts.title (Posts.items l)) nl
|}.

(** The head of [fs/posts/gradients.md]. *)
Definition gradients : string := "---
is_published: true

title: Improving gradients in TailwindCSS
# optional
subtitle: A deep dive into how we can improve gradient utility classes in TailwindCSS
---

For those unfamiliar, TailwindCSS is a CSS framework.".

(** A store with the landing page and that one post. *)
Definition siteStore : FileSystem := {|
  ReadFile := fun name =>
    if String.eqb name "fs/root.md" then Ok Landing.top
    else if String.eqb name "fs/posts/gradients.md" then Ok gradients
    else Err ("open " +:+ name +:+ ": no such file or directory");
  ReadDir := fun _ => Ok [mkDirEntry "gradients.md" false]
|}.

(** A converter under which the third project block wraps to three
    lines and every other text stays on one. *)
Definition tallThird : Glamour := {|
  newTermRendererError := fun _ => None;
  Render := fun _ text =>
    if String.eqb text Landing.prog3
    then ("escape-time" +:+ nl +:+ "fractal" +:+ nl +:+ "explorer", None)
    else if String.eqb text Landing.prog1 then ("Hypersearch", None)
    else if String.eqb text Landing.prog2 then ("asciish", None)
    else if String.eqb text Landing.prog4 then ("Clippy", None)
    else (text, None)
|}.

(** A session whose terminal was 100 columns by 30 rows at start-up. *)
Definition landing0 : Landing.model := Landing.teaHandler 100 30.

(** The same session once its first resize, to 90 by 30, is handled. *)
Definition landingLoaded : Landing.model * Landing.World :=
  match @Landing.Update glamour lipgloss bubbles landing0
          (Tea.WindowSizeMsg 90 30) Landing.initWorld with
  | Returns ((m, _), w) => (m, w)
  | Panics _ => (landing0, Landing.initWorld)
  end.

(** A store whose one post ends on its closing delimiter. *)
Definition unterminatedStore : FileSystem := {|
  ReadFile := fun name =>
    if String.eqb name "fs/posts/draft.md"
    then Ok ("---" +:+ nl +:+ "title: x" +:+ nl +:+ "---")
    else Err ("open " +:+ name +:+ ": no such file or directory");
  ReadDir := fun _ => Ok [mkDirEntry "draft.md" false]
|}.

(** A posts-revision session started at 100 by 30 and fed [msgs] in
    order; the model and the world it ends in. *)
Fixpoint feed (m : Posts.model) (msgs : list Tea.Msg)
  : M Posts.World Posts.model :=
  match msgs with
  | [] => ret m
  | msg :: rest =>
      bind (@Posts.Update glamour lipgloss bubbles bubblesList siteStore m msg)
           (fun '(m', _) => feed m' rest)
  end.

Definition browse (msgs : list Tea.Msg)
  : outcome (Posts.model * Posts.World) :=
  bind (@Posts.teaHandler siteStore 100 30) (fun m => feed m msgs)
       Posts.initWorld.

(** The session on the root page, after its first resize. *)
Definition atRoot : Posts.model * Posts.World :=
  match browse [Tea.WindowSizeMsg 100 30] with
  | Returns x => x
  | Panics _ => (Posts.mkModel false (Viewport.New 0 0) "" "" 0
                   (Posts.listNew [] 0 0) 0 0, Posts.initWorld)
  end.

(** The session on the list page, the one post under the cursor. *)
Definition atList : Posts.model * Posts.World :=
  match browse [Tea.WindowSizeMsg 100 30; Tea.KeyMsg "p"] with
  | Returns x => x
  | Panics _ => atRoot
  end.

(** A converter whose renderer cannot be made (no style file). *)
Definition noStyle : Glamour := {|
  newTermRendererError := fun _ => Some "open ./style.json: no such file";
  Render := fun _ text => (text, None)
|}.

(** A store with the landing page and an unreadable posts directory. *)
Definition noPosts : FileSystem := {|
  ReadFile := fun name =>
    if String.eqb name "fs/root.md" then Ok Landing.top
    else Err ("open " +:+ name +:+ ": no such file or directory");
  ReadDir := fun name => Err ("open " +:+ name +:+ ": no such file or directory")
|}.

(** [feed] and [browse] over any store. *)
Fixpoint feedIn (fs : FileSystem) (m : Posts.model) (msgs : list Tea.Msg)
  : M Posts.World Posts.model :=
  match msgs with
  | [] => ret m
  | msg :: rest =>
      bind (@Posts.Update glamour lipgloss bubbles bubblesList fs m msg)
           (fun '(m', _) => feedIn fs m' rest)
  end.

Definition browseIn (fs : FileSystem) (msgs : list Tea.Msg)
  : Posts.model * Posts.World :=
  match bind (@Posts.teaHandler fs 100 30) (fun m => feedIn fs m msgs)
             Posts.initWorld with
  | Returns x => x
  | Panics _ => atRoot
  end.


End Plain.

(** * Properties *)

(** ** Arithmetic on [int] *)

Lemma wrap_in_range (z : Z) : GoInt.in_range z -> GoInt.wrap z = z.
Proof.
  unfold GoInt.in_range, GoInt.min_int, GoInt.max_int, GoInt.wrap. intros Hz.
  rewrite Z.mod_small by lia. lia.
Qed.

Lemma sub_in_range (a b : Z) : GoInt.in_range (a - b) -> GoInt.sub a b = a - b.
Proof. apply wrap_in_range. Qed.

Lemma wrap_range (z : Z) : GoInt.in_range (GoInt.wrap z).
Proof.
  unfold GoInt.in_range, GoInt.min_int, GoInt.max_int, GoInt.wrap.
  pose proof (Z.mod_pos_bound (z + 2 ^ 63) (2 ^ 64) ltac:(lia)). lia.
Qed.

(** ** The viewport widget *)

Lemma SetContent_Height s v :
  Viewport.Height (Viewport.SetContent s v) = Viewport.Height v.
Proof. unfold Viewport.SetContent. case (_ >? _); reflexivity. Qed.

Lemma Split_nonempty s sep : Strings.Split s sep <> [].
Proof.
  induction s as [|c s IH]; simpl; [discriminate|].
  destruct (Ascii.eqb c sep); [discriminate|].
  destruct (Strings.Split s sep); discriminate.
Qed.

Lemma SetContent_lines s v :
  Viewport.lines (Viewport.SetContent s v)
  = Strings.Split (Viewport.dropCR s) Strings.newline.
Proof. unfold Viewport.SetContent. case (_ >? _); reflexivity. Qed.

(** After [SetContent] there is always something to synchronise. *)
Lemma Sync_SetContent s v :
  Tea.Sync (Viewport.SetContent s v)
  = Some (Tea.SyncScrollArea (Viewport.SetContent s v)).
Proof.
  unfold Tea.Sync. rewrite SetContent_lines.
  destruct (Strings.Split _ _) eqn:E; [|reflexivity].
  exfalso. exact (Split_nonempty _ _ E).
Qed.

(** ** The landing-page revision *)

Ltac run :=
  unfold mbind, mret, M_bind, M_ret, bind, ret, gets, modify, raise in *.

Lemma bind_Returns {W A B} (c : M W A) (k : A -> M W B) w b w' :
  (c ≫= k) w = Returns (b, w') ->
  exists a w1, c w = Returns (a, w1) /\ k a w1 = Returns (b, w').
Proof.
  unfold mbind, M_bind, bind. destruct (c w) as [[a w1]|]; [|discriminate].
  intros E. exists a, w1. split; [reflexivity | exact E].
Qed.

Lemma bind_run {W A B} (c : M W A) (k : A -> M W B) w a w1 :
  c w = Returns (a, w1) -> (c ≫= k) w = k a w1.
Proof. unfold mbind, M_bind, bind. intros ->. reflexivity. Qed.

Tactic Notation "step" "by" tactic(t) :=
  erewrite bind_run by t; cbv beta iota.

Section LandingFacts.
Context `{Glamour} `{Lipgloss} `{Bubbles}.
Import Landing.

(** The [needsNewTerm] block never panics and leaves [lastFitWidth]
    alone; when it does not quit, a renderer of the fitted width is in
    place. *)
Lemma newTerm_runs m w :
  exists quit w',
    newTerm m w = Returns (quit, w')
    /\ lastFitWidth w' = lastFitWidth w
    /\ (quit = false -> glamourRenderer w' = Some (mkRenderer (fitWidth m)))
    /\ (glamourRenderer w <> None -> glamourRenderer w' <> None)
    /\ ((forall x, newTermRendererError x = None) -> quit = false).
Proof.
  unfold newTerm, newTermRenderer, renderProjects, render. run. simpl.
  destruct (newTermRendererError (fitWidth m)) eqn:E1; simpl.
  { eexists _, _; repeat split; try discriminate; auto.
    intros Hall. rewrite Hall in E1. discriminate. }
  destruct (fitWidth m >? 76); simpl.
  - destruct (newTermRendererError (GoInt.sub (GoInt.div (fitWidth m) 2) 4))
      eqn:E2; simpl.
    + eexists _, _; repeat split; try discriminate; auto;
        intros Hall; rewrite Hall in E2; discriminate.
    + destruct (fitWidth m <? 80); simpl;
        eexists _, _; repeat split; try discriminate; auto.
  - destruct (fitWidth m <? 80); simpl;
      eexists _, _; repeat split; try discriminate; auto.
Qed.

(** What every returning call of [RerenderContent] does to the model. *)
Lemma RerenderContent_model m needsNewFile needsNewTerm w m' cmd w' :
  RerenderContent m needsNewFile needsNewTerm w = Returns ((m', cmd), w') ->
  Viewport.Height (viewport m')
  = GoInt.sub (GoInt.sub (cmdHeight m) headerHeight) footerHeight
  /\ fitWidth m' = fitWidth m
  /\ cmdWidth m' = cmdWidth m
  /\ cmdHeight m' = cmdHeight m
  /\ loaded m' = loaded m
  /\ lastFitWidth w' = lastFitWidth w.
Proof.
  unfold RerenderContent.
  set (m1 := withViewport _ m).
  assert (Hq : exists quit w1,
             (if needsNewTerm then newTerm m1 else ret false) w
             = Returns (quit, w1) /\ lastFitWidth w1 = lastFitWidth w).
  { destruct needsNewTerm.
    - destruct (newTerm_runs m1 w) as (q & w1 & E & Hl & _). eauto.
    - eexists _, _; split; reflexivity. }
  destruct Hq as (quit & w1 & Eq & Hl).
  unfold mbind, M_bind, bind at 1. rewrite Eq.
  destruct quit.
  - run. intros [= <- <- <-]. repeat split; auto.
  - unfold render. run. simpl. destruct (glamourRenderer w1); [|discriminate].
    intros [= <- <- <-]. simpl. rewrite SetContent_Height.
    repeat split; auto.
Qed.


(** Reusing the renderer: no renderer is made, the project blocks are
    not converted; the top and bottom blocks are, once each. *)
Lemma RerenderContent_cached m needsNewFile w r :
  glamourRenderer w = Some r ->
  exists m' snapshot,
    RerenderContent m needsNewFile false w
    = Returns ((m', Some (Tea.SyncScrollArea snapshot)),
               emit (EvRender r bot) (emit (EvRender r top) w))
    /\ Viewport.lines (viewport m') <> [].
Proof.
  intros Hr. unfold RerenderContent, render. run. simpl. rewrite Hr.
  rewrite Sync_SetContent. eexists _, _. split; [reflexivity|].
  simpl. rewrite SetContent_lines. apply Split_nonempty.
Qed.

Lemma Update_resize_model m Width Height w m' cmd w' :
  Update m (Tea.WindowSizeMsg Width Height) w = Returns ((m', cmd), w') ->
  fitWidth m'
  = (if Z.min Width maxWidth <? 80
     then GoInt.sub (Z.min Width maxWidth) 4 else Z.min Width maxWidth)
  /\ Viewport.Height (viewport m')
     = GoInt.sub (GoInt.sub Height headerHeight) footerHeight
  /\ cmdWidth m' = Width
  /\ cmdHeight m' = Height
  /\ loaded m' = true
  /\ Viewport.YPosition (viewport m') = headerHeight + 1.
Proof.
  unfold Update.
  set (m4 := withCmdHeight _ _).
  assert (F4 : fitWidth m4
               = (if Z.min Width maxWidth <? 80
                  then GoInt.sub (Z.min Width maxWidth) 4
                  else Z.min Width maxWidth)
               /\ cmdWidth m4 = Width /\ cmdHeight m4 = Height).
  { subst m4. simpl. destruct (Z.min Width maxWidth <? 80); auto. }
  destruct F4 as (Ffit & Fw & Fh).
  intros E.
  apply bind_Returns in E as ([] & w0 & _ & E).
  apply bind_Returns in E as ((m5 & cmds) & w1 & E1 & E).
  apply bind_Returns in E as (last & w2 & Eg & E).
  injection Eg as <- <-.
  apply bind_Returns in E as ((m6 & cmd0) & w3 & E2 & E).
  assert (F5 : fitWidth m5 = fitWidth m4 /\ cmdWidth m5 = Width
               /\ cmdHeight m5 = Height /\ loaded m5 = true).
  { destruct (loaded m4) eqn:El; simpl in E1.
    - injection E1 as <- <- <-. auto.
    - apply bind_Returns in E1 as ((m5' & c5) & w5 & E1 & E5).
      injection E5 as <- <- <-.
      apply RerenderContent_model in E1 as (_ & -> & -> & -> & -> & _).
      simpl. auto. }
  destruct F5 as (G1 & G2 & G3 & G4).
  assert (F6 : Viewport.Height (viewport m6)
               = GoInt.sub (GoInt.sub (cmdHeight m5) headerHeight) footerHeight
               /\ fitWidth m6 = fitWidth m5 /\ cmdWidth m6 = cmdWidth m5
               /\ cmdHeight m6 = cmdHeight m5 /\ loaded m6 = loaded m5).
  { revert E2. case (negb _); intros E2;
      apply RerenderContent_model in E2 as (? & ? & ? & ? & ? & _); auto. }
  destruct F6 as (K0 & K1 & K2 & K3 & K4).
  simpl in E. injection E as <- <- <-. simpl.
  rewrite K0, K1, K2, K3, K4, G1, G2, G3, G4, Ffit. repeat split.
Qed.











(** The second row of the two-column layout never looks at the third
    block: its left cell and its height come from the second. *)
Lemma dualColumns_second_row p1 p2 p3 p4 :
  third (dualColumns p1 p2 p3 p4) = Strings.TrimSuffix p2 Strings.nl
  /\ rowAHeight (dualColumns p1 p2 p3 p4)
     = Z.max (Strings.Count p1 Strings.newline)
             (Strings.Count p2 Strings.newline)
  /\ rowBHeight (dualColumns p1 p2 p3 p4)
     = Z.max (Strings.Count (Strings.TrimSuffix p2 Strings.nl) Strings.newline)
             (Strings.Count (Strings.TrimSuffix p4 Strings.nl) Strings.newline).
Proof. repeat split. Qed.

(** [HeaderView] returns exactly when the text fits its budget of
    [fitWidth - 6] columns or the budget is at least 4; otherwise the
    slice bound [budget - 4] is negative. *)
Lemma HeaderView_returns_iff m :
  GoInt.min_int + 10 <= fitWidth m <= GoInt.max_int ->
  (exists s, HeaderView m = Returns s)
  <-> (Strings.len (ApplyNormal "mmyron.com/") <= fitWidth m - 6
       \/ 10 <= fitWidth m).
Proof.
  intros Hf. unfold HeaderView.
  assert (Hr : forall a b, GoInt.min_int <= a - b <= GoInt.max_int ->
                           GoInt.sub a b = a - b).
  { intros a b Hab. apply sub_in_range. exact Hab. }
  unfold GoInt.min_int, GoInt.max_int in *.
  rewrite (Hr (fitWidth m) 0) by lia.
  rewrite (Hr (fitWidth m - 0) 2) by lia.
  rewrite (Hr (fitWidth m - 0 - 2) (2 * 2)) by lia.
  rewrite (Hr (fitWidth m - 0 - 2 - 2 * 2) 4) by lia.
  set (content := ApplyNormal "mmyron.com/").
  destruct (Z.gtb_spec (Strings.len content) (fitWidth m - 0 - 2 - 2 * 2)).
  - unfold Strings.sliceTo.
    destruct (Z.leb_spec 0 (fitWidth m - 0 - 2 - 2 * 2 - 4)); simpl.
    + destruct (Z.leb_spec (fitWidth m - 0 - 2 - 2 * 2 - 4)
                           (Strings.len content)); [|lia].
      split; [intros _; lia | eauto].
    + split; [intros [s' Hs]; discriminate | lia].
  - split; [intros _; lia | eauto].
Qed.

(** [HeaderView] slices with a negative bound, and panics, as soon as
    the fitted width leaves no room for the text at all. *)
Lemma HeaderView_panics_when_narrow m :
  GoInt.min_int + 10 <= fitWidth m < 6 ->
  HeaderView m = Panics SliceBoundsOutOfRange.
Proof.
  intros Hf. unfold HeaderView.
  assert (Hr : forall a b, GoInt.min_int <= a - b <= GoInt.max_int ->
                           GoInt.sub a b = a - b).
  { intros a b Hab. apply sub_in_range. exact Hab. }
  unfold GoInt.min_int, GoInt.max_int in *.
  rewrite (Hr (fitWidth m) 0) by lia.
  rewrite (Hr (fitWidth m - 0) 2) by lia.
  rewrite (Hr (fitWidth m - 0 - 2) (2 * 2)) by lia.
  rewrite (Hr (fitWidth m - 0 - 2 - 2 * 2) 4) by lia.
  set (content := ApplyNormal "mmyron.com/").
  assert (Hlen : 0 <= Strings.len content) by (unfold Strings.len; lia).
  destruct (Z.gtb_spec (Strings.len content) (fitWidth m - 0 - 2 - 2 * 2));
    [|lia].
  unfold Strings.sliceTo.
  destruct (Z.leb_spec 0 (fitWidth m - 0 - 2 - 2 * 2 - 4)); [lia|].
  reflexivity.
Qed.

End LandingFacts.








(** C1 fails on the code.  Under a converter that wraps the third
    project block to three lines and the others to one, a 100-column
    session lays out two columns; the third block is overwritten with
    the second, and the second row is given the height of the second
    block (0 line breaks) where its own members have 2. *)
Theorem second_row_measures_second_block :
  let tall := "escape-time" +:+ Strings.nl +:+ "fractal" +:+ Strings.nl
              +:+ "explorer" in
  exists m' cmd w',
    @Landing.Update Plain.tallThird Plain.lipgloss Plain.bubbles
      Plain.landing0 (Tea.WindowSizeMsg 100 30) Landing.initWorld
    = Returns ((m', cmd), w')
    /\ Landing.fitWidth m' = 80
    /\ Landing.projRender2 w' = "asciish"
    /\ Landing.projRender3 w' = "asciish"
    /\ Landing.rowBHeight
         (@Landing.dualColumns Plain.lipgloss
            "Hypersearch" "asciish" tall "Clippy") = 0
    /\ Z.max (Strings.Count tall Strings.newline)
             (Strings.Count "Clippy" Strings.newline) = 2.
Proof.
  intros tall. eexists _, _, _. split; [vm_compute; reflexivity|].
  repeat split.
Qed.

(** ** The posts revision *)

Lemma clamp_zero high : 0 <= high -> Viewport.clamp 0 0 high = 0.
Proof.
  intros Hh. unfold Viewport.clamp.
  destruct (Z.ltb_spec high 0); [lia|]. lia.
Qed.

(** Scrolling to the top and emptying the viewport, as [Rerender] does
    on the list page. *)
Lemma cleared_viewport v :
  let v' := Viewport.SetContent ""
              (Viewport.withHeight 0
                 (Viewport.withWidth 0 (Viewport.SetYOffset 0 v))) in
  Viewport.Width v' = 0 /\ Viewport.Height v' = 0
  /\ Viewport.YOffset v' = 0 /\ Viewport.lines v' = [""].
Proof.
  unfold Viewport.SetYOffset, Viewport.maxYOffset.
  rewrite clamp_zero by lia. repeat split.
Qed.

Section PostsFacts.
Context `{Glamour} `{Lipgloss} `{Bubbles} `{Posts.BubblesList} `{FileSystem}.
Import Posts.

Lemma Rerender_on_list m needsNewFile w :
  currentPath m = "/posts" ->
  exists m',
    Rerender m needsNewFile w
    = Returns ((m', Some (Tea.SyncScrollArea (viewport m'))), w)
    /\ currentPath m' = "/posts"
    /\ Viewport.Width (viewport m') = 0
    /\ Viewport.Height (viewport m') = 0
    /\ Viewport.YOffset (viewport m') = 0
    /\ Viewport.lines (viewport m') = [""].
Proof.
  intros Hp. unfold Rerender. rewrite Hp.
  change (String.eqb "/posts" "/posts") with true. cbv iota zeta.
  set (v' := Viewport.SetContent "" _).
  unfold useHighPerformanceRenderer, mret, M_ret, ret.
  change (viewport (withViewport v' m)) with v'.
  exists (withViewport v' m). split.
  - change (viewport (withViewport v' m)) with v'.
    subst v'. rewrite Sync_SetContent. reflexivity.
  - split; [exact Hp|]. apply cleared_viewport.
Qed.

Lemma renderContent_path m w m' cmd w' :
  renderContent m w = Returns ((m', cmd), w') ->
  currentPath m' = currentPath m.
Proof.
  unfold renderContent. intros E.
  apply bind_Returns in E as (current & w1 & _ & E).
  destruct current as [r|]; [|discriminate].
  apply bind_Returns in E as ((rendered & err) & w2 & _ & E).
  destruct err as [msg|].
  - apply bind_Returns in E as ([] & w3 & _ & E).
    injection E as <- _ _. reflexivity.
  - unfold useHighPerformanceRenderer in E. injection E as <- _ _. reflexivity.
Qed.

(** [Rerender] never changes the path it is given. *)
Lemma Rerender_path m needsNewFile w m' cmd w' :
  Rerender m needsNewFile w = Returns ((m', cmd), w') ->
  currentPath m' = currentPath m.
Proof.
  unfold Rerender. destruct (String.eqb (currentPath m) "/posts").
  { cbv zeta. generalize (Viewport.SetContent ""
                            (Viewport.withHeight 0
                               (Viewport.withWidth 0
                                  (Viewport.SetYOffset 0 (viewport m))))).
    intros v. unfold useHighPerformanceRenderer. intros E.
    injection E as <- _ _. reflexivity. }
  cbv zeta. intros E.
  apply bind_Returns in E as (made & w1 & _ & E).
  destruct made as [renderer|]; [|injection E as <- _ _; reflexivity].
  apply bind_Returns in E as ([] & w2 & _ & E).
  destruct needsNewFile.
  - apply bind_Returns in E as (file & w3 & _ & E).
    destruct file as [bytes|msg].
    + apply renderContent_path in E. exact E.
    + apply bind_Returns in E as ([] & w4 & _ & E).
      injection E as <- _ _. reflexivity.
  - apply renderContent_path in E. exact E.
Qed.

(** No message but [p] on the root page takes a session onto the list
    page. *)
Lemma Update_into_list m msg w m' cmd w' :
  currentPath m <> "/posts" ->
  Update m msg w = Returns ((m', cmd), w') ->
  currentPath m' = "/posts" ->
  msg = Tea.KeyMsg "p" /\ currentPath m = "/root".
Proof.
  intros Hne E Hin.
  destruct msg as [Width Height | key |].
  - exfalso. apply Hne. rewrite <- Hin. clear Hin Hne.
    unfold Update in E.
    apply bind_Returns in E as ([] & w0 & _ & E).
    apply bind_Returns in E as ((m5 & cmds) & w1 & E1 & E).
    apply bind_Returns in E as (last & w2 & _ & E).
    apply bind_Returns in E as ((m6 & cmds6) & w3 & E2 & E).
    simpl in E. injection E as <- _ _. simpl.
    assert (H6 : currentPath m6 = currentPath m5).
    { revert E2. case (negb _); intros E2.
      - apply bind_Returns in E2 as ((m7 & c7) & w7 & E2 & E7).
        injection E7 as <- _ _. exact (Rerender_path _ _ _ _ _ _ E2).
      - injection E2 as <- _ _. reflexivity. }
    rewrite H6. clear E2 H6.
    revert E1. case (negb _); intros E1.
    + apply bind_Returns in E1 as ((m7 & c7) & w7 & E1 & E7).
      injection E7 as <- _ _. rewrite (Rerender_path _ _ _ _ _ _ E1).
      simpl. destruct (negb (String.eqb (currentPath m) "/posts")); reflexivity.
    + injection E1 as <- _ _. simpl.
      destruct (negb (String.eqb (currentPath m) "/posts")); reflexivity.
  - unfold Update in E.
    apply bind_Returns in E as (st & w1 & E1 & E).
    assert (Hst : match st with
                  | inl (m1, _) => currentPath m1 = "/posts" -> False
                  | inr (m1, _, _) =>
                      currentPath m1 = "/posts" ->
                      key = "p" /\ currentPath m = "/root"
                  end).
    { clear E. unfold onKey in E1.
      assert (Hkeep : forall (c : option Tea.Cmd) cs,
                ret (inr (m, c, cs)) w = Returns (st, w1) ->
                match st with
                | inl (m1, _) => currentPath m1 = "/posts" -> False
                | inr (m1, _, _) =>
                    currentPath m1 = "/posts" ->
                    key = "p" /\ currentPath m = "/root"
                end).
      { intros c cs Ek. unfold ret in Ek. injection Ek as <- _.
        intros Hc. contradiction. }
      assert (Hmove : forall target needsNewFile,
                (target = "/posts" -> key = "p" /\ currentPath m = "/root") ->
                (Rerender (withCurrentPath target m) needsNewFile
                 ≫= (fun '(m0, cmd0) =>
                        ret (inr (m0, cmd0, appendIfSet [] cmd0)))) w
                = Returns (st, w1) ->
                match st with
                | inl (m1, _) => currentPath m1 = "/posts" -> False
                | inr (m1, _, _) =>
                    currentPath m1 = "/posts" ->
                    key = "p" /\ currentPath m = "/root"
                end).
      { intros target nnf Ht Em.
        apply bind_Returns in Em as ((m1 & c1) & w2 & Er & Em).
        injection Em as <- _. apply Rerender_path in Er. simpl in Er.
        intros Hc. apply Ht. congruence. }
      destruct (String.eqb key "q").
      { injection E1 as <- _. exact Hne. }
      destruct (String.eqb key "p") eqn:Ep.
      { apply String.eqb_eq in Ep.
        destruct (String.eqb (currentPath m) "/root") eqn:Er.
        - apply String.eqb_eq in Er.
          apply (Hmove "/posts" false (fun _ => conj Ep Er) E1).
        - exact (Hkeep _ _ E1). }
      destruct (String.eqb key "b").
      { destruct (negb (String.eqb (currentPath m) "/root")).
        - apply (Hmove "/root" true ltac:(intros Hd; discriminate Hd) E1).
        - exact (Hkeep _ _ E1). }
      destruct (String.eqb key "enter").
      { destruct (String.eqb (currentPath m) "/posts") eqn:Epp.
        - apply String.eqb_eq in Epp. contradiction.
        - exact (Hkeep _ _ E1). }
      destruct (negb (String.eqb (currentPath m) "/posts")) eqn:Epp.
      - destruct (viewportUpdate (viewport m) (Tea.KeyMsg key)) as [vp c].
        injection E1 as <- _. intros Hc. contradiction.
      - apply negb_false_iff, String.eqb_eq in Epp. contradiction. }
    destruct st as [[m1 c1] | [[m1 c1] cs]].
    + injection E as <- _ _. contradiction.
    + assert (Hm1 : m' = m1).
      { unfold finish in E. destruct (0 <? _); injection E as <- _ _; reflexivity. }
      subst m'. destruct (Hst Hin) as [-> Hr]. split; [reflexivity | exact Hr].
  - unfold Update, finish in E. simpl in E. injection E as <- _ _. contradiction.
Qed.

(** C8.  A session enters [/posts] only by [p] on the root page, and
    that update leaves the viewport at width 0, height 0, offset 0 and
    empty content, and returns in the same step a batch that carries the
    viewport synchronisation (high-performance rendering is on). *)
Theorem entering_list_clears_viewport_and_syncs m w :
  currentPath m = "/root" ->
  (exists m' batch,
     Update m (Tea.KeyMsg "p") w = Returns ((m', Some batch), w)
     /\ currentPath m' = "/posts"
     /\ Viewport.Width (viewport m') = 0
     /\ Viewport.Height (viewport m') = 0
     /\ Viewport.YOffset (viewport m') = 0
     /\ Viewport.lines (viewport m') = Strings.Split "" Strings.newline
     /\ (useHighPerformanceRenderer = true -> Tea.syncs batch = true))
  /\ (forall m0 msg w0 m' cmd w',
        currentPath m0 <> "/posts" ->
        Update m0 msg w0 = Returns ((m', cmd), w') ->
        currentPath m' = "/posts" ->
        msg = Tea.KeyMsg "p" /\ currentPath m0 = "/root").
Proof.
  intros Hp. split; [|apply Update_into_list].
  unfold Update, onKey. simpl String.eqb. cbv iota.
  rewrite Hp. simpl String.eqb. cbv iota.
  destruct (Rerender_on_list (withCurrentPath "/posts" m) false w)
    as (m' & E & Hc & Hw & Hh & Hy & Hl); [reflexivity|].
  eexists m', _. split.
  { step by ((step by (exact E)); reflexivity). reflexivity. }
  repeat split; assumption.
Qed.


(** In the posts revision the budget is [fitWidth - 17]: [HeaderView]
    returns exactly when the text fits it or the fitted width is at
    least 21. *)
Lemma HeaderView_returns_iff_posts m :
  GoInt.min_int + 21 <= fitWidth m <= GoInt.max_int ->
  (exists s, HeaderView m = Returns s)
  <-> (Strings.len
         (ApplyNormal
            ("mmyron.com"
             +:+ (if negb (String.eqb (currentPath m) "/root")
                  then currentPath m else "/")))
       <= fitWidth m - 17
       \/ 21 <= fitWidth m).
Proof.
  intros Hf. unfold HeaderView.
  assert (Hr : forall a b, GoInt.min_int <= a - b <= GoInt.max_int ->
                           GoInt.sub a b = a - b).
  { intros a b Hab. apply sub_in_range. exact Hab. }
  unfold GoInt.min_int, GoInt.max_int in *.
  rewrite (Hr (fitWidth m) 11) by lia.
  rewrite (Hr (fitWidth m - 11) 2) by lia.
  rewrite (Hr (fitWidth m - 11 - 2) (2 * 2)) by lia.
  rewrite (Hr (fitWidth m - 11 - 2 - 2 * 2) 4) by lia.
  destruct (negb (String.eqb (currentPath m) "/root")).
  all: match goal with
       | |- context [Strings.len ?c >? _] => set (content := c)
       end.
  all: destruct (Z.gtb_spec (Strings.len content)
                            (fitWidth m - 11 - 2 - 2 * 2));
    [|split; [intros _; lia | eauto]].
  all: unfold Strings.sliceTo.
  all: destruct (Z.leb_spec 0 (fitWidth m - 11 - 2 - 2 * 2 - 4)); simpl;
    [|split; [intros [s' Hs]; discriminate | lia]].
  all: destruct (Z.leb_spec (fitWidth m - 11 - 2 - 2 * 2 - 4)
                            (Strings.len content)); [|lia].
  all: split; [intros _; lia | eauto].
Qed.

(** [HeaderView] of the posts revision panics below a fitted width of
    17, whatever the path shown. *)
Lemma HeaderView_panics_when_narrow_posts m :
  GoInt.min_int + 21 <= fitWidth m < 17 ->
  HeaderView m = Panics SliceBoundsOutOfRange.
Proof.
  intros Hf. unfold HeaderView.
  assert (Hr : forall a b, GoInt.min_int <= a - b <= GoInt.max_int ->
                           GoInt.sub a b = a - b).
  { intros a b Hab. apply sub_in_range. exact Hab. }
  unfold GoInt.min_int, GoInt.max_int in *.
  destruct (negb (String.eqb (currentPath m) "/root")).
  all: rewrite (Hr (fitWidth m) 11) by lia.
  all: rewrite (Hr (fitWidth m - 11) 2) by lia.
  all: rewrite (Hr (fitWidth m - 11 - 2) (2 * 2)) by lia.
  all: rewrite (Hr (fitWidth m - 11 - 2 - 2 * 2) 4) by lia.
  all: match goal with
       | |- context [Strings.len ?c >? _] =>
           assert (Hlen : 0 <= Strings.len c) by (unfold Strings.len; lia);
           destruct (Z.gtb_spec (Strings.len c) (fitWidth m - 11 - 2 - 2 * 2));
           [|lia]
       end.
  all: unfold Strings.sliceTo.
  all: destruct (Z.leb_spec 0 (fitWidth m - 11 - 2 - 2 * 2 - 4)); [lia|].
  all: reflexivity.
Qed.

End PostsFacts.

(** C8 on the session that has just loaded the root page. *)
Lemma entering_list_clears_viewport_and_syncs_witness :
  exists m' batch,
    @Posts.Update Plain.glamour Plain.lipgloss Plain.bubbles
      Plain.bubblesList Plain.siteStore
      (fst Plain.atRoot) (Tea.KeyMsg "p") (snd Plain.atRoot)
    = Returns ((m', Some batch), snd Plain.atRoot)
    /\ Posts.currentPath m' = "/posts"
    /\ Viewport.Width (Posts.viewport m') = 0
    /\ Viewport.Height (Posts.viewport m') = 0
    /\ Viewport.YOffset (Posts.viewport m') = 0
    /\ Viewport.lines (Posts.viewport m') = Strings.Split "" Strings.newline
    /\ (Posts.useHighPerformanceRenderer = true -> Tea.syncs batch = true).
Proof.
  apply (@entering_list_clears_viewport_and_syncs
           Plain.glamour Plain.lipgloss Plain.bubbles Plain.bubblesList
           Plain.siteStore (fst Plain.atRoot) (snd Plain.atRoot)).
  vm_compute. reflexivity.
Defined.



(** C10 fails on the code.  After a resize to 9 columns the landing
    page's fitted width is 5, the header's budget is -1 and the slice
    bound -5; after a resize to 20 columns the posts revision has a
    budget of 3 for 11 bytes of text and the slice bound -1.  Both
    [HeaderView] calls, and [View] with them, panic. *)
Theorem header_truncation_panics_on_narrow_terminal :
  (exists m' cmd w',
     @Landing.Update Plain.glamour Plain.lipgloss Plain.bubbles
       Plain.landing0 (Tea.WindowSizeMsg 9 30) Landing.initWorld
     = Returns ((m', cmd), w')
     /\ Landing.fitWidth m' = 5
     /\ @Landing.HeaderView Plain.lipgloss m' = Panics SliceBoundsOutOfRange
     /\ @Landing.View Plain.lipgloss m' = Panics SliceBoundsOutOfRange)
  /\ (exists m w,
        Plain.browse [Tea.WindowSizeMsg 20 30] = Returns (m, w)
        /\ Posts.fitWidth m = 20
        /\ @Posts.HeaderView Plain.lipgloss m = Panics SliceBoundsOutOfRange
        /\ @Posts.View Plain.lipgloss Plain.bubblesList m
           = Panics SliceBoundsOutOfRange).
Proof.
  split.
  - eexists _, _, _. split; [vm_compute; reflexivity|].
    split; [reflexivity|]. split; vm_compute; reflexivity.
  - eexists _, _. split; [vm_compute; reflexivity|].
    split; [reflexivity|]. split; vm_compute; reflexivity.
Qed.

(** ** frontmatter.go *)

Lemma index_Split_first s sep :
  exists first, Strings.index (Strings.Split s sep) 0 = Returns first.
Proof.
  unfold Strings.index. simpl.
  destruct (Strings.Split s sep) eqn:E; [|eauto].
  exfalso. exact (Split_nonempty _ _ E).
Qed.

(** A line that contains the separator splits into two parts at least,
    so [parts[0]] and [parts[1]] are in range. *)
Lemma Contains_Split_second s sep :
  Strings.Contains s sep = true ->
  exists k v rest, Strings.Split s sep = k :: v :: rest.
Proof.
  induction s as [|c s IH]; simpl; [discriminate|].
  destruct (Ascii.eqb c sep); simpl.
  - intros _. destruct (Strings.Split s sep) eqn:E.
    + exfalso. exact (Split_nonempty _ _ E).
    + eauto.
  - intros Hc. destruct (IH Hc) as (k & v & rest & ->). eauto.
Qed.

(** The one way the loop over the lines can panic is the slice
    [lines[i+2:]]. *)
Lemma scan_panics_only_slicing lines rest i acc p :
  Frontmatter.scan lines rest i acc = Panics p -> p = SliceBoundsOutOfRange.
Proof.
  revert i acc. induction rest as [|line rest IH]; intros i acc; simpl.
  - discriminate.
  - destruct (i =? 0); [apply IH|].
    destruct (Strings.HasPrefix line "---").
    + unfold Strings.sliceFrom. destruct (_ && _); [discriminate|].
      intros [= <-]. reflexivity.
    + destruct (Strings.Contains line Strings.colon) eqn:Ec; [|apply IH].
      destruct (Contains_Split_second _ _ Ec) as (k & v & more & ->).
      simpl. apply IH.
Qed.

Lemma SplitFrontmatterMarkdown_panics_only_slicing content p :
  Frontmatter.SplitFrontmatterMarkdown content = Panics p -> p = SliceBoundsOutOfRange.
Proof.
  unfold Frontmatter.SplitFrontmatterMarkdown.
  destruct (index_Split_first content Strings.newline) as (first & ->).
  destruct (Strings.HasPrefix first "---"); [|discriminate].
  destruct (Frontmatter.scan _ _ 0 ∅) as [[[r|] acc]|q] eqn:E; try discriminate.
  intros [= <-]. exact (scan_panics_only_slicing _ _ _ _ _ E).
Qed.

(** The loop returns at the closing delimiter if [lines] reaches two
    entries further, and panics there if not; with no closing delimiter
    it runs to the end. *)
Lemma scan_outcome lines rest i acc :
  0 <= i ->
  match Frontmatter.closingDelimiter rest i with
  | Some j =>
      if j + 2 <=? Z.of_nat (length lines)
      then exists r acc', Frontmatter.scan lines rest i acc
                          = Returns (Some r, acc')
      else Frontmatter.scan lines rest i acc = Panics SliceBoundsOutOfRange
  | None => exists acc', Frontmatter.scan lines rest i acc = Returns (None, acc')
  end.
Proof.
  revert i acc. induction rest as [|line rest IH]; intros i acc Hi; simpl.
  - eauto.
  - destruct (i =? 0) eqn:E0; simpl.
    + apply IH. lia.
    + destruct (Strings.HasPrefix line "---").
      * unfold Strings.sliceFrom.
        replace (0 <=? i + 2) with true by (symmetry; lia). simpl.
        destruct (i + 2 <=? Z.of_nat (length lines)); eauto.
      * destruct (Strings.Contains line Strings.colon) eqn:Ec.
        -- destruct (Contains_Split_second _ _ Ec) as (k & v & more & ->).
           simpl. apply IH. lia.
        -- apply IH. lia.
Qed.

Lemma closingDelimiter_bounds rest i j :
  Frontmatter.closingDelimiter rest i = Some j ->
  i <= j < i + Z.of_nat (length rest).
Proof.
  revert i. induction rest as [|line rest IH]; intros i; simpl.
  - discriminate.
  - destruct (negb (i =? 0) && Strings.HasPrefix line "---").
    + intros [= <-]. lia.
    + intros E. apply IH in E. lia.
Qed.

(** X1.  [SplitFrontmatterMarkdown] panics exactly on the inputs whose first
    line opens a metadata block and whose closing delimiter is the very
    last line; on every other input it returns. *)
Lemma SplitFrontmatterMarkdown_panics_iff content :
  let lines := Strings.Split content Strings.newline in
  Frontmatter.SplitFrontmatterMarkdown content = Panics SliceBoundsOutOfRange
  <-> Strings.HasPrefix (hd "" lines) "---" = true
      /\ Frontmatter.closingDelimiter lines 0
         = Some (Z.of_nat (length lines) - 1).
Proof.
  intros lines. unfold Frontmatter.SplitFrontmatterMarkdown. fold lines.
  destruct (index_Split_first content Strings.newline) as (first & Ef).
  fold lines in Ef. rewrite Ef.
  assert (Hhd : hd "" lines = first).
  { unfold Strings.index in Ef. simpl in Ef.
    destruct lines; [discriminate|]. simpl. congruence. }
  rewrite Hhd.
  destruct (Strings.HasPrefix first "---"); [|split; [discriminate | intros [? _]; discriminate]].
  pose proof (scan_outcome lines lines 0 ∅ ltac:(lia)) as Hs.
  destruct (Frontmatter.closingDelimiter lines 0) as [j|] eqn:Ej.
  - apply closingDelimiter_bounds in Ej.
    destruct (j + 2 <=? Z.of_nat (length lines)) eqn:Efit.
    + destruct Hs as (r & acc' & ->). split; [discriminate|].
      intros [_ [= ->]]. lia.
    + rewrite Hs. split; [|reflexivity].
      intros _. split; [reflexivity|]. f_equal. lia.
  - destruct Hs as (acc' & ->). split; [discriminate | intros [_ ?]; discriminate].
Qed.

(** Splitting at the separator: a first piece without it is cut off
    whole. *)
Lemma Split_first_piece k sep rest :
  Strings.Contains k sep = false ->
  Strings.Split (k +:+ String sep rest) sep = k :: Strings.Split rest sep.
Proof.
  induction k as [|c k IH]; simpl.
  - intros _. rewrite Ascii.eqb_refl. reflexivity.
  - destruct (Ascii.eqb c sep); simpl; [discriminate|].
    intros Hk. rewrite (IH Hk). reflexivity.
Qed.

(** On a [key: value: more] line the second part is [value] alone, so
    whatever follows the second colon never reaches the map. *)
Lemma second_part_stops_at_second_colon key value more :
  Strings.Contains key Strings.colon = false ->
  Strings.Contains value Strings.colon = false ->
  Strings.index
    (Strings.Split (key +:+ String Strings.colon
                      (value +:+ String Strings.colon more)) Strings.colon) 1
  = Returns value.
Proof.
  intros Hk Hv. rewrite (Split_first_piece key _ _ Hk).
  rewrite (Split_first_piece value _ _ Hv). reflexivity.
Qed.

(** C5 fails on the code.  The line [url: https://mmyron.com] is split
    at every colon and only the second piece is kept: the map holds
    [https] under [url]. *)
Theorem value_is_cut_at_its_first_colon :
  exists r,
    Frontmatter.SplitFrontmatterMarkdown
      ("---" +:+ Strings.nl +:+ "url: https://mmyron.com" +:+ Strings.nl
       +:+ "---" +:+ Strings.nl +:+ Strings.nl +:+ "body")
    = Returns r
    /\ Frontmatter.fm r !! "url" = Some "https"
    /\ Frontmatter.fm r !! "url" <> Some "https://mmyron.com"
    /\ Frontmatter.md r = "body".
Proof.
  eexists. split; [vm_compute; reflexivity|].
  split; [vm_compute; reflexivity|]. split; [vm_compute; discriminate|].
  reflexivity.
Qed.

(** C9 fails on the code.  When the closing delimiter is the last line,
    [lines[i+2:]] starts one past the end of the slice and the call
    panics; one line more (a trailing line feed) and it returns. *)
Theorem closing_delimiter_on_last_line_panics :
  Frontmatter.SplitFrontmatterMarkdown
    ("---" +:+ Strings.nl +:+ "title: x" +:+ Strings.nl +:+ "---")
  = Panics SliceBoundsOutOfRange
  /\ exists r,
       Frontmatter.SplitFrontmatterMarkdown
         ("---" +:+ Strings.nl +:+ "title: x" +:+ Strings.nl +:+ "---"
          +:+ Strings.nl)
       = Returns r
       /\ Frontmatter.md r = "".
Proof.
  split; [vm_compute; reflexivity|].
  eexists. split; [vm_compute; reflexivity | reflexivity].
Qed.

(** Such a post file takes the session down as it is being set up. *)
Lemma teaHandler_panics_on_unterminated_post :
  @Posts.teaHandler Plain.unterminatedStore 100 30 Posts.initWorld
  = Panics SliceBoundsOutOfRange.
Proof. vm_compute. reflexivity. Qed.

(** * Further properties *)

(** ** frontmatter.go: what is returned, and from which lines *)

(** From line 1 on, the loop gathers the pairs of the lines before the
    closing delimiter and slices there; without one it gathers them
    all. *)
Lemma scan_collect lines rest i acc :
  1 <= i ->
  Frontmatter.scan lines rest i acc
  = match Frontmatter.closingDelimiter rest i with
    | Some j =>
        let acc' := Frontmatter.collect (firstn (Z.to_nat (j - i)) rest) acc in
        match Strings.sliceFrom lines (j + 2) with
        | Returns body =>
            Returns (Some (Frontmatter.mkSplit (Strings.Join body Strings.nl)
                             acc' []), acc')
        | Panics p => Panics p
        end
    | None => Returns (None, Frontmatter.collect rest acc)
    end.
Proof.
  revert i acc. induction rest as [|line rest IH]; intros i acc Hi.
  - reflexivity.
  - simpl Frontmatter.scan. simpl Frontmatter.closingDelimiter.
    replace (i =? 0) with false by (symmetry; lia). simpl negb. cbv iota.
    destruct (Strings.HasPrefix line "---"); simpl andb; cbv iota.
    + rewrite Z.sub_diag. reflexivity.
    + assert (Hstep : Frontmatter.scan lines rest (i + 1)
                        (Frontmatter.addLine acc line)
                      = match Frontmatter.closingDelimiter rest (i + 1) with
                        | Some j =>
                            let acc' :=
                              Frontmatter.collect
                                (firstn (Z.to_nat (j - i)) (line :: rest)) acc in
                            match Strings.sliceFrom lines (j + 2) with
                            | Returns body =>
                                Returns
                                  (Some (Frontmatter.mkSplit
                                           (Strings.Join body Strings.nl)
                                           acc' []), acc')
                            | Panics p => Panics p
                            end
                        | None =>
                            Returns (None,
                                     Frontmatter.collect (line :: rest) acc)
                        end).
      { rewrite IH by lia.
        destruct (Frontmatter.closingDelimiter rest (i + 1)) as [j|] eqn:Ej;
          [|reflexivity].
        apply closingDelimiter_bounds in Ej.
        replace (Z.to_nat (j - i)) with (S (Z.to_nat (j - (i + 1)))) by lia.
        reflexivity. }
      unfold Frontmatter.addLine in Hstep.
      destruct (Strings.Contains line Strings.colon) eqn:Ec.
      * destruct (Contains_Split_second _ _ Ec) as (k & v & more & Es).
        rewrite Es in *. simpl. exact Hstep.
      * exact Hstep.
Qed.

(** X2.  A file with a complete metadata block: the body is what follows
    the line after the closing delimiter (that line is dropped whatever
    it holds), the map comes from the lines strictly between the two
    delimiters, and nothing is printed. *)
Theorem frontmatter_block_is_split_off content j :
  let lines := Strings.Split content Strings.newline in
  Strings.HasPrefix (hd "" lines) "---" = true ->
  Frontmatter.closingDelimiter lines 0 = Some j ->
  j + 2 <= Z.of_nat (length lines) ->
  Frontmatter.SplitFrontmatterMarkdown content
  = Returns
      (Frontmatter.mkSplit
         (Strings.Join (skipn (Z.to_nat (j + 2)) lines) Strings.nl)
         (Frontmatter.collect (firstn (Z.to_nat (j - 1)) (tl lines)) ∅)
         []).
Proof.
  intros lines Hopen Hclose Hfit.
  unfold Frontmatter.SplitFrontmatterMarkdown. fold lines.
  destruct lines as [|first others] eqn:El.
  { exfalso. exact (Split_nonempty _ _ El). }
  simpl in Hopen. unfold Strings.index. simpl nth_error.
  change (0 <=? 0) with true. cbv iota.
  rewrite Hopen.
  simpl Frontmatter.scan. simpl in Hclose.
  rewrite scan_collect by lia. rewrite Hclose.
  pose proof (closingDelimiter_bounds _ _ _ Hclose) as Hj.
  unfold Strings.sliceFrom.
  replace (0 <=? j + 2) with true by (symmetry; lia).
  replace (j + 2 <=? Z.of_nat (length (first :: others))) with true
    by (symmetry; lia).
  reflexivity.
Qed.

(** X3.  A file with no complete metadata block, because the first line does
    not open one or because nothing closes it: the whole content comes
    back as the body and the notice is printed.  In the second case the
    map still holds every pair found after the first line. *)
Theorem no_frontmatter_returns_content content :
  let lines := Strings.Split content Strings.newline in
  Strings.HasPrefix (hd "" lines) "---" = false
  \/ Frontmatter.closingDelimiter lines 0 = None ->
  Frontmatter.SplitFrontmatterMarkdown content
  = Returns
      (Frontmatter.mkSplit content
         (if Strings.HasPrefix (hd "" lines) "---"
          then Frontmatter.collect (tl lines) ∅ else ∅)
         ["no frontmatter found"]).
Proof.
  intros lines Hnone.
  unfold Frontmatter.SplitFrontmatterMarkdown. fold lines.
  destruct lines as [|first others] eqn:El.
  { exfalso. exact (Split_nonempty _ _ El). }
  unfold Strings.index. simpl nth_error.
  change (0 <=? 0) with true. cbv iota. simpl hd in *.
  destruct (Strings.HasPrefix first "---") eqn:Eo; [|reflexivity].
  destruct Hnone as [|Hclose]; [discriminate|].
  simpl Frontmatter.scan. simpl in Hclose.
  rewrite scan_collect by lia. rewrite Hclose. reflexivity.
Qed.

(** The metadata block at the head of [gradients.md] closes on line 6 of
    9. *)
Lemma frontmatter_block_is_split_off_witness :
  Frontmatter.SplitFrontmatterMarkdown Plain.gradients
  = Returns
      (Frontmatter.mkSplit
         (Strings.Join
            (skipn (Z.to_nat (6 + 2))
               (Strings.Split Plain.gradients Strings.newline)) Strings.nl)
         (Frontmatter.collect
            (firstn (Z.to_nat (6 - 1))
               (tl (Strings.Split Plain.gradients Strings.newline))) ∅)
         []).
Proof.
  apply (frontmatter_block_is_split_off Plain.gradients 6).
  - vm_compute. reflexivity.
  - vm_compute. reflexivity.
  - vm_compute. discriminate.
Defined.

(** The landing page text opens no metadata block. *)
Lemma no_frontmatter_returns_content_witness :
  Frontmatter.SplitFrontmatterMarkdown Landing.top
  = Returns
      (Frontmatter.mkSplit Landing.top
         (if Strings.HasPrefix
               (hd "" (Strings.Split Landing.top Strings.newline)) "---"
          then Frontmatter.collect
                 (tl (Strings.Split Landing.top Strings.newline)) ∅
          else ∅)
         ["no frontmatter found"]).
Proof.
  apply (no_frontmatter_returns_content Landing.top).
  left. vm_compute. reflexivity.
Defined.

(** ** The landing-page revision: resizes, failures and key presses *)

Lemma conversions_snoc t e :
  conversions (t ++ [e])%list
  = (conversions t + (if isRender e then 1 else 0))%nat.
Proof.
  unfold conversions. rewrite List.filter_app, length_app. simpl.
  destruct (isRender e); reflexivity.
Qed.

(** A batch that was handed [tea.Quit] quits. *)
Lemma mkBatch_quits (cmds : list (option Tea.Cmd)) :
  In (Some Tea.Quit) cmds ->
  exists batch, Tea.mkBatch cmds = Some batch /\ Tea.quits batch = true.
Proof.
  intros Hin. unfold Tea.mkBatch.
  assert (Hq : In Tea.Quit (omap id cmds)).
  { apply list_elem_of_In, list_elem_of_omap.
    exists (Some Tea.Quit). split; [apply list_elem_of_In; exact Hin | reflexivity]. }
  destruct (omap id cmds) as [|c0 rest] eqn:Eb; [contradiction|].
  eexists. split; [reflexivity|].
  change (existsb Tea.quits (c0 :: rest) = true).
  apply existsb_exists. exists Tea.Quit. split; [exact Hq | reflexivity].
Qed.

Section LandingMore.
Context `{Glamour} `{Lipgloss} `{Bubbles}.
Import Landing.

(** Making the renderers and converting everything costs six
    conversions: the four project blocks, the top and the bottom. *)
Lemma RerenderContent_renders_six m needsNewFile w :
  (forall x, newTermRendererError x = None) ->
  exists m' cmd w',
    RerenderContent m needsNewFile true w = Returns ((m', cmd), w')
    /\ conversions (trace w') = (conversions (trace w) + 6)%nat
    /\ glamourRenderer w' = Some (mkRenderer (fitWidth m)).
Proof.
  intros Hall.
  unfold RerenderContent, newTerm, newTermRenderer, renderProjects, render.
  run. simpl. rewrite (Hall (fitWidth m)).
  destruct (fitWidth m >? 76); simpl;
    rewrite ?(Hall (GoInt.sub (GoInt.div (fitWidth m) 2) 4));
    destruct (fitWidth m <? 80); simpl;
    eexists _, _, _; (split; [reflexivity|]); simpl;
    (split; [|reflexivity]);
    rewrite !conversions_snoc; simpl; lia.
Qed.

(** When the renderer cannot be made, [RerenderContent] prints the
    error and asks to quit, the package variables left as they were. *)
Lemma RerenderContent_renderer_fails m needsNewFile w msg :
  newTermRendererError (fitWidth m) = Some msg ->
  exists m',
    RerenderContent m needsNewFile true w
    = Returns ((m', Some Tea.Quit),
               emit (EvPrintln msg) (emit (EvNewTermRenderer (fitWidth m)) w)).
Proof.
  intros Hfail.
  unfold RerenderContent, newTerm, newTermRenderer. run. simpl.
  rewrite Hfail. simpl. eexists. reflexivity.
Qed.

Lemma RerenderContent_without_renderer m needsNewFile w :
  glamourRenderer w = None ->
  RerenderContent m needsNewFile false w = Panics NilDereference.
Proof.
  intros Hnone. unfold RerenderContent. run. simpl. rewrite Hnone. reflexivity.
Qed.

(** The model [Update] hands to [RerenderContent] on a resize. *)
Lemma resized_model_fields m Width Height :
  let m4 :=
    withCmdHeight Height
      (withCmdWidth Width
         (withViewport
            (Viewport.withHeight
               (GoInt.sub (GoInt.sub Height headerHeight) footerHeight)
               (viewport
                  (if fitWidth (withFitWidth (Z.min Width maxWidth) m) <? 80
                   then withFitWidth
                          (GoInt.sub
                             (fitWidth (withFitWidth (Z.min Width maxWidth) m))
                             4)
                          (withFitWidth (Z.min Width maxWidth) m)
                   else withFitWidth (Z.min Width maxWidth) m)))
            (if fitWidth (withFitWidth (Z.min Width maxWidth) m) <? 80
             then withFitWidth
                    (GoInt.sub
                       (fitWidth (withFitWidth (Z.min Width maxWidth) m)) 4)
                    (withFitWidth (Z.min Width maxWidth) m)
             else withFitWidth (Z.min Width maxWidth) m))) in
  loaded m4 = loaded m
  /\ fitWidth m4
     = (if Z.min Width maxWidth <? 80
        then GoInt.sub (Z.min Width maxWidth) 4 else Z.min Width maxWidth).
Proof. simpl. destruct (Z.min Width maxWidth <? 80); split; reflexivity. Qed.

(** X4.  After a resize the fitted width is at most 75 or exactly 80, never
    76 to 79: the half-width renderer ([fitWidth > 76]) is made exactly
    when the blocks go in two columns ([fitWidth >= 80]). *)
Theorem fitted_width_skips_76_to_79 m Width Height w m' cmd w' :
  GoInt.min_int + 4 <= Width <= GoInt.max_int ->
  Update m (Tea.WindowSizeMsg Width Height) w = Returns ((m', cmd), w') ->
  (fitWidth m' <= 75 \/ fitWidth m' = 80)
  /\ (fitWidth m' >? 76) = negb (fitWidth m' <? 80).
Proof.
  intros Hw E. apply Update_resize_model in E as (-> & _).
  unfold maxWidth. destruct (Z.min Width 80 <? 80) eqn:Elt.
  - rewrite sub_in_range
      by (unfold GoInt.in_range, GoInt.min_int, GoInt.max_int in *; lia).
    split; [lia|].
    destruct (Z.gtb_spec (Z.min Width 80 - 4) 76);
      destruct (Z.ltb_spec (Z.min Width 80 - 4) 80); simpl; lia.
  - split; [lia|].
    destruct (Z.gtb_spec (Z.min Width 80) 76);
      destruct (Z.ltb_spec (Z.min Width 80) 80); simpl; lia.
Qed.

(** X5.  The first resize of a session converts everything once, and then
    once more in full if the fitted width differs from the estimate
    [teaHandler] left in the model: 12 conversions instead of 8. *)
Theorem first_resize_conversions m Width Height w :
  loaded m = false ->
  (forall x, newTermRendererError x = None) ->
  exists m' cmd w',
    Update m (Tea.WindowSizeMsg Width Height) w = Returns ((m', cmd), w')
    /\ conversions (trace w')
       = (conversions (trace w)
          + (if (fitWidth m =? fitWidth m')%Z then 8 else 12))%nat.
Proof.
  intros Hl Hall. unfold Update.
  destruct (resized_model_fields m Width Height) as (Hl4 & Hf4).
  set (m4 := withCmdHeight _ _) in *.
  step by reflexivity.
  rewrite Hl4, Hl. simpl negb. cbv iota.
  set (m5 := withLoaded true _).
  destruct (RerenderContent_renders_six m5 true
              (setLastFitWidth (fitWidth m) w) Hall)
    as (m6 & c6 & w6 & E6 & Hc6 & Hr6).
  pose proof (RerenderContent_model _ _ _ _ _ _ _ E6)
    as (_ & Hf6 & _ & _ & _ & Hlast6).
  step by ((step by (exact E6)); reflexivity).
  step by reflexivity.
  rewrite Hlast6. simpl lastFitWidth.
  destruct (fitWidth m =? fitWidth m6) eqn:Esame; simpl negb; cbv iota.
  - destruct (RerenderContent_cached m6 false w6 _ Hr6)
      as (m7 & snap & E7 & _).
    pose proof (RerenderContent_model _ _ _ _ _ _ _ E7) as (_ & Hf7 & _).
    step by exact E7.
    eexists _, _, _. split; [reflexivity|].
    simpl. rewrite Hf7, Esame. rewrite !conversions_snoc. simpl.
    rewrite Hc6. simpl. lia.
  - destruct (RerenderContent_renders_six m6 false w6 Hall)
      as (m7 & c7 & w7 & E7 & Hc7 & _).
    pose proof (RerenderContent_model _ _ _ _ _ _ _ E7) as (_ & Hf7 & _).
    step by exact E7.
    eexists _, _, _. split; [reflexivity|].
    simpl. rewrite Hf7, Esame. rewrite Hc7, Hc6. simpl. lia.
Qed.


(** X7.  With no renderer in place and none to be made, a resize that keeps
    the fitted width panics on the nil renderer; one that changes it
    ends the session with [tea.Quit]. *)
Theorem resize_without_renderer m Width Height w msg :
  glamourRenderer w = None ->
  newTermRendererError
    (if Z.min Width maxWidth <? 80
     then GoInt.sub (Z.min Width maxWidth) 4 else Z.min Width maxWidth)
  = Some msg ->
  if (if Z.min Width maxWidth <? 80
      then GoInt.sub (Z.min Width maxWidth) 4 else Z.min Width maxWidth)
     =? fitWidth m
  then Update m (Tea.WindowSizeMsg Width Height) w = Panics NilDereference
  else exists m' batch w',
         Update m (Tea.WindowSizeMsg Width Height) w
         = Returns ((m', Some batch), w')
         /\ Tea.quits batch = true
         /\ glamourRenderer w' = None.
Proof.
  intros Hnone Hfail. unfold Update.
  destruct (resized_model_fields m Width Height) as (Hl4 & Hf4).
  set (m4 := withCmdHeight _ _) in *.
  rewrite <- Hf4 in *.
  assert (H1st : exists m5 cmds w1,
             (if negb (loaded m4)
              then RerenderContent
                     (withLoaded true
                        (withViewport
                           (Viewport.withHighPerformanceRendering
                              useHighPerformanceRenderer (viewport m4)) m4))
                     true true
                   ≫= (fun '(m0, cmd0) => ret (m0, [cmd0]))
              else ret (m4, []))
               (setLastFitWidth (fitWidth m) w)
             = Returns ((m5, cmds), w1)
             /\ fitWidth m5 = fitWidth m4
             /\ glamourRenderer w1 = None
             /\ lastFitWidth w1 = fitWidth m).
  { destruct (negb (loaded m4)).
    - edestruct (RerenderContent_renderer_fails
                   (withLoaded true
                      (withViewport
                         (Viewport.withHighPerformanceRendering
                            useHighPerformanceRenderer (viewport m4)) m4))
                   true (setLastFitWidth (fitWidth m) w) msg) as (m5 & E5).
      { exact Hfail. }
      pose proof (RerenderContent_model _ _ _ _ _ _ _ E5) as (_ & Hf5 & _).
      eexists _, _, _. split; [(step by (exact E5)); reflexivity|].
      split; [exact Hf5|]. split; [exact Hnone | reflexivity].
    - eexists _, _, _. split; [reflexivity|].
      split; [reflexivity|]. split; [exact Hnone | reflexivity]. }
  destruct H1st as (m5 & cmds & w1 & E1 & Hf5 & Hn1 & Hlast1).
  step by reflexivity. step by exact E1. step by reflexivity.
  rewrite Hlast1, Hf5, (Z.eqb_sym (fitWidth m)).
  destruct (fitWidth m4 =? fitWidth m); simpl negb; cbv iota.
  - unfold mbind, M_bind, bind.
    rewrite (RerenderContent_without_renderer m5 false w1 Hn1). reflexivity.
  - destruct (RerenderContent_renderer_fails m5 false w1 msg) as (m6 & E6).
    { rewrite Hf5. exact Hfail. }
    step by exact E6.
    unfold useHighPerformanceRenderer. cbv iota zeta.
    match goal with
    | |- context [Tea.mkBatch ?l] =>
        destruct (mkBatch_quits l) as (batch & Eb & Hq);
        [|rewrite Eb]
    end.
    { apply in_or_app. left. apply in_or_app. right. left. reflexivity. }
    eexists _, batch, _. split; [reflexivity|]. split; [exact Hq | exact Hn1].
Qed.


Lemma HeaderView_panics_slicing m p :
  HeaderView m = Panics p -> p = SliceBoundsOutOfRange.
Proof.
  unfold HeaderView. cbv zeta.
  destruct (Strings.len (ApplyNormal "mmyron.com/") >? _); [|discriminate].
  unfold Strings.sliceTo.
  destruct ((0 <=? _) && _); [discriminate|].
  intros [= <-]. reflexivity.
Qed.

(** X9.  [View] draws a frame exactly when the header text fits its budget
    of [fitWidth - 6] columns or the budget leaves room for the
    ellipsis ([fitWidth >= 10]); otherwise it panics on the slice in
    [HeaderView]. *)
Theorem View_returns_iff m :
  GoInt.min_int + 10 <= fitWidth m <= GoInt.max_int ->
  ((exists s, View m = Returns s)
   <-> (Strings.len (ApplyNormal "mmyron.com/") <= fitWidth m - 6
        \/ 10 <= fitWidth m))
  /\ ((forall s, View m <> Returns s)
      -> View m = Panics SliceBoundsOutOfRange).
Proof.
  intros Hf. pose proof (HeaderView_returns_iff m Hf) as Hh.
  pose proof (HeaderView_panics_slicing m) as Hp.
  unfold View. destruct (HeaderView m) as [hdr|p].
  - split.
    + rewrite <- Hh. split; eauto.
    + intros Hno. exfalso. eapply Hno. reflexivity.
  - split.
    + rewrite <- Hh. split; intros [s Hs]; discriminate.
    + intros _. rewrite (Hp p eq_refl). reflexivity.
Qed.

End LandingMore.

(** ** The posts revision: navigation, the list page and the post list *)

Lemma SetContent_keeps_top s v :
  Viewport.YOffset v = 0 -> Viewport.YOffset (Viewport.SetContent s v) = 0.
Proof.
  intros Hy. unfold Viewport.SetContent.
  pose proof (Split_nonempty (Viewport.dropCR s) Strings.newline) as Hne.
  simpl. rewrite Hy.
  destruct (Strings.Split (Viewport.dropCR s) Strings.newline) as [|l ls];
    [contradiction|].
  destruct (Z.gtb_spec 0 (Z.of_nat (length (l :: ls)) - 1)) as [Hgt|_].
  - simpl length in Hgt. lia.
  - exact Hy.
Qed.

Section PostsMore.
Context `{Glamour} `{Lipgloss} `{Bubbles} `{Posts.BubblesList} `{FileSystem}.
Import Posts.

(** A resize never moves a session to another page. *)
Lemma Update_resize_path m Width Height w m' cmd w' :
  Update m (Tea.WindowSizeMsg Width Height) w = Returns ((m', cmd), w') ->
  currentPath m' = currentPath m.
Proof.
  intros E. unfold Update in E.
  apply bind_Returns in E as ([] & w0 & _ & E).
  apply bind_Returns in E as ((m5 & cmds) & w1 & E1 & E).
  apply bind_Returns in E as (last & w2 & _ & E).
  apply bind_Returns in E as ((m6 & cmds6) & w3 & E2 & E).
  unfold useHighPerformanceRenderer in E. injection E as <- _ _.
  change (currentPath m6 = currentPath m).
  assert (H6 : currentPath m6 = currentPath m5).
  { revert E2. case (negb _); intros E2.
    - apply bind_Returns in E2 as ((m7 & c7) & w7 & E2 & E7).
      injection E7 as <- _ _. exact (Rerender_path _ _ _ _ _ _ E2).
    - injection E2 as <- _ _. reflexivity. }
  rewrite H6. clear E2 H6.
  revert E1. case (negb _); intros E1.
  - apply bind_Returns in E1 as ((m7 & c7) & w7 & E1 & E7).
    injection E7 as <- _ _. rewrite (Rerender_path _ _ _ _ _ _ E1).
    simpl. destruct (negb (String.eqb (currentPath m) "/posts")); reflexivity.
  - injection E1 as <- _ _. simpl.
    destruct (negb (String.eqb (currentPath m) "/posts")); reflexivity.
Qed.

(** X10.  The navigation graph.  An update keeps the page, or it is [p] on
    the root page and goes to the list, or [b] and goes to the root
    page, or [enter] on the list and goes to the selected post's
    path. *)
Theorem navigation_steps m msg w m' cmd w' :
  Update m msg w = Returns ((m', cmd), w') ->
  currentPath m' = currentPath m
  \/ (msg = Tea.KeyMsg "p" /\ currentPath m = "/root"
      /\ currentPath m' = "/posts")
  \/ (msg = Tea.KeyMsg "b" /\ currentPath m' = "/root")
  \/ (msg = Tea.KeyMsg "enter" /\ currentPath m = "/posts"
      /\ exists p, SelectedItem (posts m) = Some p
                   /\ currentPath m' = path p).
Proof.
  intros E. destruct msg as [Width Height | key |].
  - left. exact (Update_resize_path _ _ _ _ _ _ _ E).
  - unfold Update in E.
    apply bind_Returns in E as (st & w1 & E1 & E).
    assert (Hfin : forall m1 c1 cs,
              ret (finish m1 c1 cs) w1 = Returns ((m', cmd), w') -> m' = m1).
    { intros m1 c1 cs Ef. unfold finish in Ef.
      destruct (0 <? _); injection Ef as <- _ _; reflexivity. }
    assert (Hmove : forall target needsNewFile,
              (Rerender (withCurrentPath target m) needsNewFile
               ≫= (fun '(m0, cmd0) =>
                      ret (inr (m0, cmd0, appendIfSet [] cmd0)))) w
              = Returns (st, w1) ->
              currentPath m' = target).
    { intros target nnf Em.
      apply bind_Returns in Em as ((m1 & c1) & w2 & Er & Em).
      unfold mret, M_ret, ret in Em. injection Em as <- _.
      apply Hfin in E. subst m'. apply Rerender_path in Er. exact Er. }
    assert (Hkeep : forall (c : option Tea.Cmd) cs,
              ret (inr (m, c, cs)) w = Returns (st, w1) ->
              currentPath m' = currentPath m).
    { intros c cs Ek. unfold ret in Ek. injection Ek as <- _.
      apply Hfin in E. subst m'. reflexivity. }
    unfold onKey in E1.
    destruct (String.eqb key "q").
    { unfold mret, M_ret, ret in E1. injection E1 as <- _.
      unfold mret, M_ret, ret in E. injection E as <- _ _. left. reflexivity. }
    destruct (String.eqb key "p") eqn:Ep.
    { apply String.eqb_eq in Ep. subst key.
      destruct (String.eqb (currentPath m) "/root") eqn:Er.
      - apply String.eqb_eq in Er. right. left.
        split; [reflexivity|]. split; [exact Er|].
        exact (Hmove _ _ E1).
      - left. exact (Hkeep _ _ E1). }
    destruct (String.eqb key "b") eqn:Eb.
    { apply String.eqb_eq in Eb. subst key.
      destruct (negb (String.eqb (currentPath m) "/root")).
      - right. right. left. split; [reflexivity|]. exact (Hmove _ _ E1).
      - left. exact (Hkeep _ _ E1). }
    destruct (String.eqb key "enter") eqn:Ee.
    { apply String.eqb_eq in Ee. subst key.
      destruct (String.eqb (currentPath m) "/posts") eqn:Epp.
      - apply String.eqb_eq in Epp.
        destruct (SelectedItem (posts m)) as [p|] eqn:Es; [|discriminate].
        right. right. right. split; [reflexivity|]. split; [exact Epp|].
        exists p. split; [reflexivity|]. exact (Hmove _ _ E1).
      - left. exact (Hkeep _ _ E1). }
    left. destruct (negb (String.eqb (currentPath m) "/posts")).
    + destruct (viewportUpdate (viewport m) (Tea.KeyMsg key)) as [vp c].
      unfold mret, M_ret, ret in E1. injection E1 as <- _.
      apply Hfin in E. subst m'. reflexivity.
    + destruct (listUpdate (posts m) (Tea.KeyMsg key)) as [l c].
      unfold mret, M_ret, ret in E1. injection E1 as <- _.
      apply Hfin in E. subst m'. reflexivity.
  - left. unfold Update, finish in E. simpl in E.
    injection E as <- _ _. reflexivity.
Qed.

(** X11.  [enter] on the list page with nothing under the cursor, as on an
    empty list, panics on the type assertion of the selected item. *)
Theorem enter_without_selection_panics m w :
  currentPath m = "/posts" ->
  items (posts m) = [] \/ SelectedItem (posts m) = None ->
  Update m (Tea.KeyMsg "enter") w = Panics TypeAssertion.
Proof.
  intros Hp Hsel.
  assert (Hnone : SelectedItem (posts m) = None).
  { destruct Hsel as [Hi|Hs]; [|exact Hs].
    unfold SelectedItem. rewrite Hi. simpl length.
    destruct (cursor (posts m) <? 0) eqn:E1; [reflexivity|].
    destruct (Z.of_nat 0 <=? cursor (posts m)) eqn:E2; [reflexivity|].
    exfalso. apply Z.ltb_ge in E1. apply Z.leb_gt in E2. simpl in E2. lia. }
  unfold Update, onKey. simpl String.eqb. cbv iota.
  rewrite Hp. simpl String.eqb. cbv iota. rewrite Hnone. reflexivity.
Qed.

(** On the list page [Rerender] replaces the viewport and nothing else
    of the model. *)
Lemma Rerender_on_list_shape m needsNewFile w :
  currentPath m = "/posts" ->
  exists v,
    Rerender m needsNewFile w = Returns ((withViewport v m, Tea.Sync v), w)
    /\ Viewport.Width v = 0 /\ Viewport.Height v = 0.
Proof.
  intros Hp. unfold Rerender. rewrite Hp.
  change (String.eqb "/posts" "/posts") with true. cbv iota zeta.
  set (v' := Viewport.SetContent "" _).
  unfold useHighPerformanceRenderer, mret, M_ret, ret.
  change (viewport (withViewport v' m)) with v'.
  exists v'. split; [reflexivity|].
  destruct (cleared_viewport (viewport m)) as (Hw & Hh & _).
  split; [exact Hw | exact Hh].
Qed.

(** X12.  While the list page is shown a resize keeps the viewport at 0 by
    0, sizes the list to the fitted width and the body height, and
    neither converts nor reads anything: of the package variables only
    [lastFitWidth] changes. *)
Theorem resize_on_list_page m Width Height w :
  currentPath m = "/posts" ->
  Viewport.Width (viewport m) = 0 ->
  Viewport.Height (viewport m) = 0 ->
  exists m' cmd,
    Update m (Tea.WindowSizeMsg Width Height) w
    = Returns ((m', cmd), setLastFitWidth (fitWidth m) w)
    /\ currentPath m' = "/posts"
    /\ Viewport.Width (viewport m') = 0
    /\ Viewport.Height (viewport m') = 0
    /\ fitWidth m' = Z.min Width maxWidth
    /\ listWidth (posts m') = Z.min Width maxWidth
    /\ listHeight (posts m')
       = GoInt.sub (GoInt.sub Height headerHeight) footerHeight
    /\ items (posts m') = items (posts m).
Proof.
  intros Hp Hw Hh. unfold Update.
  change (currentPath (withFitWidth (Z.min Width maxWidth) m))
    with (currentPath m).
  rewrite Hp. change (negb (String.eqb "/posts" "/posts")) with false.
  cbv iota zeta.
  set (m4 := withPosts _ _).
  assert (F4 : currentPath m4 = "/posts"
               /\ Viewport.Width (viewport m4) = 0
               /\ Viewport.Height (viewport m4) = 0
               /\ fitWidth m4 = Z.min Width maxWidth
               /\ listWidth (posts m4) = Z.min Width maxWidth
               /\ listHeight (posts m4)
                  = GoInt.sub (GoInt.sub Height headerHeight) footerHeight
               /\ items (posts m4) = items (posts m)).
  { subst m4. simpl. auto 10. }
  assert (Hre : forall m0 needsNewFile w0,
            currentPath m0 = "/posts" ->
            fitWidth m0 = Z.min Width maxWidth ->
            posts m0 = posts m4 ->
            exists m1 c1,
              Rerender m0 needsNewFile w0 = Returns ((m1, c1), w0)
              /\ currentPath m1 = "/posts"
              /\ Viewport.Width (viewport m1) = 0
              /\ Viewport.Height (viewport m1) = 0
              /\ fitWidth m1 = Z.min Width maxWidth
              /\ posts m1 = posts m4).
  { intros m0 nnf w0 Hp0 Hf0 Hl0.
    destruct (Rerender_on_list_shape m0 nnf w0 Hp0) as (v & E & Hw1 & Hh1).
    eexists _, _. split; [exact E|]. simpl. auto 10. }
  destruct F4 as (G1 & G2 & G3 & G4 & G5 & G6 & G7).
  step by reflexivity.
  set (w0 := setLastFitWidth (fitWidth m) w).
  assert (H1st : exists m5 cmds,
             (if negb (loaded m4)
              then Rerender
                     (withLoaded true
                        (withViewport
                           (Viewport.withHighPerformanceRendering
                              useHighPerformanceRenderer (viewport m4)) m4))
                     true
                   ≫= (fun '(m0, cmd0) => ret (m0, [cmd0]))
              else ret (m4, [])) w0 = Returns ((m5, cmds), w0)
             /\ currentPath m5 = "/posts"
             /\ Viewport.Width (viewport m5) = 0
             /\ Viewport.Height (viewport m5) = 0
             /\ fitWidth m5 = Z.min Width maxWidth
             /\ posts m5 = posts m4).
  { destruct (negb (loaded m4)).
    - edestruct (Hre (withLoaded true
                        (withViewport
                           (Viewport.withHighPerformanceRendering
                              useHighPerformanceRenderer (viewport m4)) m4))
                     true w0) as (m5 & c5 & E5 & K); try assumption; try reflexivity.
      eexists _, _. split; [(step by (exact E5)); reflexivity | exact K].
    - eexists _, _. split; [reflexivity|]. auto 10. }
  destruct H1st as (m5 & cmds & E1 & K1 & K2 & K3 & K4 & K5).
  step by exact E1. step by reflexivity.
  assert (H2nd : exists m6 cmds6,
             (if negb (lastFitWidth w0 =? fitWidth m5)
              then Rerender m5 false
                   ≫= (fun '(m0, cmd0) => ret (m0, (cmds ++ [cmd0])%list))
              else ret (m5, cmds)) w0 = Returns ((m6, cmds6), w0)
             /\ currentPath m6 = "/posts"
             /\ Viewport.Width (viewport m6) = 0
             /\ Viewport.Height (viewport m6) = 0
             /\ fitWidth m6 = Z.min Width maxWidth
             /\ posts m6 = posts m4).
  { destruct (negb (lastFitWidth w0 =? fitWidth m5)).
    - destruct (Hre m5 false w0 K1 K4 K5) as (m6 & c6 & E6 & K).
      eexists _, _. split; [(step by (exact E6)); reflexivity | exact K].
    - eexists _, _. split; [reflexivity|]. auto 10. }
  destruct H2nd as (m6 & cmds6 & E2 & L1 & L2 & L3 & L4 & L5).
  step by exact E2.
  unfold useHighPerformanceRenderer. cbv iota zeta.
  eexists _, _. split; [reflexivity|]. simpl.
  rewrite L5. repeat split; assumption.
Qed.

(** X13.  [b] away from the root page loads the root page afresh: the file is
    read again, converted with a new renderer of the fitted width, shown
    from the top, and a synchronisation is returned. *)
Theorem back_reloads_root m w bytes :
  currentPath m <> "/root" ->
  newTermRendererError (fitWidth m) = None ->
  ReadFile "fs/root.md" = Ok bytes ->
  snd (Render (mkRenderer (fitWidth m)) bytes) = None ->
  exists m' batch w',
    Update m (Tea.KeyMsg "b") w = Returns ((m', Some batch), w')
    /\ currentPath m' = "/root"
    /\ content m' = bytes
    /\ Viewport.YOffset (viewport m') = 0
    /\ Viewport.Height (viewport m')
       = GoInt.sub (GoInt.sub (cmdHeight m) headerHeight) footerHeight
    /\ trace w'
       = (trace w ++ [EvNewTermRenderer (fitWidth m); EvReadFile "fs/root.md";
                      EvRender (mkRenderer (fitWidth m)) bytes])%list
    /\ glamourRenderer w' = Some (mkRenderer (fitWidth m))
    /\ Tea.syncs batch = true.
Proof.
  intros Hp Hmk Hread Hconv.
  unfold Update, onKey. simpl String.eqb. cbv iota.
  apply String.eqb_neq in Hp. rewrite Hp. simpl negb. cbv iota.
  unfold Rerender. simpl currentPath.
  change (String.eqb "/root" "/posts") with false. cbv iota zeta.
  unfold newTermRenderer, readFile, renderContent, render, println.
  run. simpl. rewrite Hmk. simpl.
  change ("fs" +:+ "/root" +:+ ".md") with "fs/root.md". rewrite Hread. simpl.
  destruct (Render (mkRenderer (fitWidth m)) bytes) as [rendered err] eqn:Er.
  simpl in Hconv. subst err. simpl.
  rewrite Sync_SetContent. simpl.
  eexists _, _, _. split; [reflexivity|]. simpl.
  rewrite SetContent_Height, <- !app_assoc. simpl.
  repeat split.
  apply SetContent_keeps_top. unfold Viewport.SetYOffset, Viewport.maxYOffset.
  simpl. apply clamp_zero. lia.
Qed.

Lemma HeaderView_panics_slicing_posts m p :
  HeaderView m = Panics p -> p = SliceBoundsOutOfRange.
Proof.
  unfold HeaderView. cbv zeta.
  destruct (negb (String.eqb (currentPath m) "/root")).
  all: match goal with
       | |- context [Strings.len ?c >? ?b] => destruct (Strings.len c >? b)
       end; [|discriminate].
  all: unfold Strings.sliceTo.
  all: destruct ((0 <=? _) && _); [discriminate|].
  all: intros [= <-]; reflexivity.
Qed.

(** X16.  [View] of the posts revision draws a frame exactly when the header
    text fits its budget of [fitWidth - 17] columns or the fitted width
    is at least 21; otherwise it panics on the slice in [HeaderView]. *)
Theorem View_returns_iff_posts m :
  GoInt.min_int + 21 <= fitWidth m <= GoInt.max_int ->
  ((exists s, View m = Returns s)
   <-> (Strings.len
          (ApplyNormal
             ("mmyron.com"
              +:+ (if negb (String.eqb (currentPath m) "/root")
                   then currentPath m else "/")))
        <= fitWidth m - 17
        \/ 21 <= fitWidth m))
  /\ ((forall s, View m <> Returns s)
      -> View m = Panics SliceBoundsOutOfRange).
Proof.
  intros Hf. pose proof (HeaderView_returns_iff_posts m Hf) as Hh.
  pose proof (HeaderView_panics_slicing_posts m) as Hp.
  unfold View. destruct (HeaderView m) as [hdr|p].
  - split.
    + rewrite <- Hh. split; eauto.
    + intros Hno. exfalso. eapply Hno. reflexivity.
  - split.
    + rewrite <- Hh. split; intros [s Hs]; discriminate.
    + intros _. rewrite (Hp p eq_refl). reflexivity.
Qed.

Lemma forEach_println ls w :
  exists w', forEach println ls w = Returns (tt, w')
             /\ allPosts w' = allPosts w.
Proof.
  revert w. induction ls as [|l ls IH]; intros w; simpl.
  - eexists. split; reflexivity.
  - unfold bind, println, modify. simpl.
    destruct (IH (emit (EvPrintln l) w)) as (w' & E & Hk).
    exists w'. split; [exact E | exact Hk].
Qed.

(** What [teaHandler] does with one directory entry does not depend on
    the posts gathered so far: it appends the same posts to the
    package-level list, or panics the same way. *)
Lemma loadPost_appends file :
  (exists added,
     (IsDir file = false ->
      exists p, added = [p] /\ path p = "fs/posts" +:+ Name file)
     /\ forall w, exists w',
          loadPost file w = Returns (tt, w')
          /\ allPosts w' = (allPosts w ++ added)%list)
  \/ (exists q, forall w, loadPost file w = Panics q).
Proof.
  unfold loadPost. destruct (IsDir file).
  { left. exists []. split; [discriminate|].
    intros w. exists w. split; [reflexivity|]. rewrite app_nil_r. reflexivity. }
  unfold readFile, println. run.
  destruct (ReadFile ("fs/posts/" +:+ Name file)) as [bytes|msg];
    cbv beta iota;
    match goal with
    | |- context [Frontmatter.SplitFrontmatterMarkdown ?text] =>
        destruct (Frontmatter.SplitFrontmatterMarkdown text) as [parsed|q]
    end.
  1, 3: left; eexists; split; cycle 1;
    [ intros w;
      match goal with
      | |- context [forEach ?f ?ls ?w0] =>
          destruct (forEach_println ls w0) as (w1 & E1 & Hk1);
          change (forEach f ls w0) with (forEach println ls w0)
      end;
      rewrite E1; eexists; split; [reflexivity|];
      simpl; rewrite Hk1; reflexivity
    | intros _; eexists; split; reflexivity ].
  all: right; exists q; intros w; reflexivity.
Qed.

Lemma forEach_loadPost_appends files :
  (exists added,
     forall w, exists w',
       forEach loadPost files w = Returns (tt, w')
       /\ allPosts w' = (allPosts w ++ added)%list)
  \/ (exists q, forall w, forEach loadPost files w = Panics q).
Proof.
  induction files as [|file files IH]; simpl.
  - left. exists []. intros w. exists w.
    split; [reflexivity|]. rewrite app_nil_r. reflexivity.
  - destruct (loadPost_appends file) as [(a1 & _ & Ha1) | (q & Hq)].
    + destruct IH as [(a2 & Ha2) | (q & Hq)].
      * left. exists (a1 ++ a2)%list. intros w.
        destruct (Ha1 w) as (w1 & E1 & K1). destruct (Ha2 w1) as (w2 & E2 & K2).
        exists w2. unfold bind. rewrite E1. split; [exact E2|].
        rewrite K2, K1, app_assoc. reflexivity.
      * right. exists q. intros w. destruct (Ha1 w) as (w1 & E1 & _).
        unfold bind. rewrite E1. apply Hq.
    + right. exists q. intros w. unfold bind. rewrite Hq. reflexivity.
Qed.

(** X17.  The path [teaHandler] stores for a post is [fs/posts] and the file
    name run together, so the file [Rerender] would open for it,
    [fs] + path + [.md], is never the file the post was read from. *)
Theorem stored_path_is_not_the_file_read file w w' :
  IsDir file = false ->
  loadPost file w = Returns (tt, w') ->
  exists p,
    allPosts w' = (allPosts w ++ [p])%list
    /\ path p = "fs/posts" +:+ Name file
    /\ "fs" +:+ path p +:+ ".md" <> "fs/posts/" +:+ Name file.
Proof.
  intros Hd E.
  destruct (loadPost_appends file) as [(added & Hp & Hw) | (q & Hq)].
  - destruct (Hp Hd) as (p & -> & Hpath).
    destruct (Hw w) as (w1 & E1 & K1).
    rewrite E in E1. injection E1 as <-.
    exists p. split; [exact K1|]. split; [exact Hpath|].
    rewrite Hpath. simpl. discriminate.
  - rewrite Hq in E. discriminate.
Qed.

(** X18.  The post list is a package-level variable that [teaHandler] only
    appends to: a session lists the posts of every earlier session and
    then its own, so a second session on the same store shows each post
    of the first twice. *)
Theorem post_list_accumulates physWidth physHeight w m1 w1 :
  teaHandler physWidth physHeight w = Returns (m1, w1) ->
  exists added,
    items (posts m1) = (allPosts w ++ added)%list
    /\ forall width height,
         exists m2 w2,
           teaHandler width height w1 = Returns (m2, w2)
           /\ items (posts m2) = ((allPosts w ++ added) ++ added)%list.
Proof.
  intros E.
  assert (Hframe :
            (exists added,
               forall a b w0, exists m0 w0',
                 teaHandler a b w0 = Returns (m0, w0')
                 /\ allPosts w0' = (allPosts w0 ++ added)%list
                 /\ items (posts m0) = (allPosts w0 ++ added)%list)
            \/ (exists q, forall a b w0, teaHandler a b w0 = Panics q)).
  { unfold teaHandler. cbv zeta. unfold println. run.
    destruct (ReadDir "fs/posts") as [entries|msg].
    - destruct (forEach_loadPost_appends entries) as [(added & Ha) | (q & Hq)].
      + left. exists added. intros a b w0.
        destruct (Ha w0) as (w0' & E0 & K0). rewrite E0. simpl.
        eexists _, _. split; [reflexivity|]. simpl. auto.
      + right. exists q. intros a b w0. rewrite Hq. reflexivity.
    - left. exists []. intros a b w0. simpl.
      eexists _, _. split; [reflexivity|]. simpl.
      rewrite app_nil_r. auto. }
  destruct Hframe as [(added & Ha) | (q & Hq)].
  - exists added.
    destruct (Ha physWidth physHeight w) as (m0 & w0' & E0 & K0 & I0).
    rewrite E in E0. injection E0 as <- <-.
    split; [exact I0|]. intros width height.
    destruct (Ha width height w1) as (m2 & w2 & E2 & K2 & I2).
    exists m2, w2. split; [exact E2|]. rewrite I2, K0. reflexivity.
  - rewrite Hq in E. discriminate.
Qed.



End PostsMore.

(** ** The further properties at concrete sessions *)

Lemma fitted_width_skips_76_to_79_witness :
  (Landing.fitWidth (fst Plain.landingLoaded) <= 75
   \/ Landing.fitWidth (fst Plain.landingLoaded) = 80)
  /\ (Landing.fitWidth (fst Plain.landingLoaded) >? 76)
     = negb (Landing.fitWidth (fst Plain.landingLoaded) <? 80).
Proof.
  eapply (@fitted_width_skips_76_to_79
            Plain.glamour Plain.lipgloss Plain.bubbles
            Plain.landing0 90 30 Landing.initWorld).
  - vm_compute. split; discriminate.
  - vm_compute. reflexivity.
Defined.

Lemma first_resize_conversions_witness :
  exists m' cmd w',
    @Landing.Update Plain.glamour Plain.lipgloss Plain.bubbles
      (Landing.teaHandler 70 30) (Tea.WindowSizeMsg 70 30) Landing.initWorld
    = Returns ((m', cmd), w')
    /\ conversions (Landing.trace w')
       = (conversions (Landing.trace Landing.initWorld)
          + (if (Landing.fitWidth (Landing.teaHandler 70 30)
                 =? Landing.fitWidth m')%Z
             then 8 else 12))%nat.
Proof.
  apply (@first_resize_conversions
           Plain.glamour Plain.lipgloss Plain.bubbles
           (Landing.teaHandler 70 30) 70 30 Landing.initWorld).
  - reflexivity.
  - intros x. reflexivity.
Defined.


(** At start-up width 100 the estimate is 80, the fitted width stays 80
    and the resize runs into the missing renderer. *)
Lemma resize_without_renderer_witness :
  @Landing.Update Plain.noStyle Plain.lipgloss Plain.bubbles
    Plain.landing0 (Tea.WindowSizeMsg 100 30) Landing.initWorld
  = Panics NilDereference.
Proof.
  exact (@resize_without_renderer
           Plain.noStyle Plain.lipgloss Plain.bubbles
           Plain.landing0 100 30 Landing.initWorld
           "open ./style.json: no such file" eq_refl eq_refl).
Defined.

Lemma View_returns_iff_witness :
  ((exists s, @Landing.View Plain.lipgloss Plain.landing0 = Returns s)
   <-> (Strings.len (@ApplyNormal Plain.lipgloss "mmyron.com/")
        <= Landing.fitWidth Plain.landing0 - 6
        \/ 10 <= Landing.fitWidth Plain.landing0))
  /\ ((forall s, @Landing.View Plain.lipgloss Plain.landing0 <> Returns s)
      -> @Landing.View Plain.lipgloss Plain.landing0
         = Panics SliceBoundsOutOfRange).
Proof.
  apply (@View_returns_iff Plain.lipgloss Plain.landing0).
  vm_compute. split; discriminate.
Defined.

Lemma navigation_steps_witness :
  exists m' cmd w',
    @Posts.Update Plain.glamour Plain.lipgloss Plain.bubbles
      Plain.bubblesList Plain.siteStore
      (fst Plain.atList) (Tea.KeyMsg "b") (snd Plain.atList)
    = Returns ((m', cmd), w')
    /\ (Posts.currentPath m' = Posts.currentPath (fst Plain.atList)
        \/ (Tea.KeyMsg "b" = Tea.KeyMsg "p"
            /\ Posts.currentPath (fst Plain.atList) = "/root"
            /\ Posts.currentPath m' = "/posts")
        \/ (Tea.KeyMsg "b" = Tea.KeyMsg "b" /\ Posts.currentPath m' = "/root")
        \/ (Tea.KeyMsg "b" = Tea.KeyMsg "enter"
            /\ Posts.currentPath (fst Plain.atList) = "/posts"
            /\ exists p,
                 Posts.SelectedItem (Posts.posts (fst Plain.atList)) = Some p
                 /\ Posts.currentPath m' = Posts.path p)).
Proof.
  eexists _, _, _. split; [vm_compute; reflexivity|].
  eapply (@navigation_steps
            Plain.glamour Plain.lipgloss Plain.bubbles Plain.bubblesList
            Plain.siteStore (fst Plain.atList) (Tea.KeyMsg "b")
            (snd Plain.atList)).
  vm_compute. reflexivity.
Defined.

(** With the posts directory unreadable the list is empty; [p] then
    [enter] panics. *)
Lemma enter_without_selection_panics_witness :
  @Posts.Update Plain.glamour Plain.lipgloss Plain.bubbles
    Plain.bubblesList Plain.noPosts
    (fst (Plain.browseIn Plain.noPosts
            [Tea.WindowSizeMsg 100 30; Tea.KeyMsg "p"]))
    (Tea.KeyMsg "enter")
    (snd (Plain.browseIn Plain.noPosts
            [Tea.WindowSizeMsg 100 30; Tea.KeyMsg "p"]))
  = Panics TypeAssertion.
Proof.
  apply (@enter_without_selection_panics
           Plain.glamour Plain.lipgloss Plain.bubbles Plain.bubblesList
           Plain.noPosts).
  - vm_compute. reflexivity.
  - left. vm_compute. reflexivity.
Defined.

Lemma resize_on_list_page_witness :
  exists m' cmd,
    @Posts.Update Plain.glamour Plain.lipgloss Plain.bubbles
      Plain.bubblesList Plain.siteStore
      (fst Plain.atList) (Tea.WindowSizeMsg 60 20) (snd Plain.atList)
    = Returns ((m', cmd),
               Posts.setLastFitWidth (Posts.fitWidth (fst Plain.atList))
                 (snd Plain.atList))
    /\ Posts.currentPath m' = "/posts"
    /\ Viewport.Width (Posts.viewport m') = 0
    /\ Viewport.Height (Posts.viewport m') = 0
    /\ Posts.fitWidth m' = Z.min 60 Posts.maxWidth
    /\ Posts.listWidth (Posts.posts m') = Z.min 60 Posts.maxWidth
    /\ Posts.listHeight (Posts.posts m')
       = GoInt.sub (GoInt.sub 20 Posts.headerHeight) Posts.footerHeight
    /\ Posts.items (Posts.posts m') = Posts.items (Posts.posts (fst Plain.atList)).
Proof.
  apply (@resize_on_list_page
           Plain.glamour Plain.lipgloss Plain.bubbles Plain.bubblesList
           Plain.siteStore (fst Plain.atList) 60 20 (snd Plain.atList)).
  - vm_compute. reflexivity.
  - vm_compute. reflexivity.
  - vm_compute. reflexivity.
Defined.

Lemma back_reloads_root_witness :
  exists m' batch w',
    @Posts.Update Plain.glamour Plain.lipgloss Plain.bubbles
      Plain.bubblesList Plain.siteStore
      (fst Plain.atList) (Tea.KeyMsg "b") (snd Plain.atList)
    = Returns ((m', Some batch), w')
    /\ Posts.currentPath m' = "/root"
    /\ Posts.content m' = Landing.top
    /\ Viewport.YOffset (Posts.viewport m') = 0
    /\ Viewport.Height (Posts.viewport m')
       = GoInt.sub (GoInt.sub (Posts.cmdHeight (fst Plain.atList))
                              Posts.headerHeight) Posts.footerHeight
    /\ Posts.trace w'
       = (Posts.trace (snd Plain.atList)
          ++ [EvNewTermRenderer (Posts.fitWidth (fst Plain.atList));
              EvReadFile "fs/root.md";
              EvRender (mkRenderer (Posts.fitWidth (fst Plain.atList)))
                Landing.top])%list
    /\ Posts.glamourRenderer w'
       = Some (mkRenderer (Posts.fitWidth (fst Plain.atList)))
    /\ Tea.syncs batch = true.
Proof.
  apply (@back_reloads_root
           Plain.glamour Plain.lipgloss Plain.bubbles Plain.bubblesList
           Plain.siteStore (fst Plain.atList) (snd Plain.atList) Landing.top).
  - vm_compute. discriminate.
  - reflexivity.
  - reflexivity.
  - reflexivity.
Defined.

Lemma View_returns_iff_posts_witness :
  ((exists s, @Posts.View Plain.lipgloss Plain.bubblesList (fst Plain.atRoot)
              = Returns s)
   <-> (Strings.len
          (@ApplyNormal Plain.lipgloss
             ("mmyron.com"
              +:+ (if negb (String.eqb (Posts.currentPath (fst Plain.atRoot))
                                       "/root")
                   then Posts.currentPath (fst Plain.atRoot) else "/")))
        <= Posts.fitWidth (fst Plain.atRoot) - 17
        \/ 21 <= Posts.fitWidth (fst Plain.atRoot)))
  /\ ((forall s, @Posts.View Plain.lipgloss Plain.bubblesList
                   (fst Plain.atRoot) <> Returns s)
      -> @Posts.View Plain.lipgloss Plain.bubblesList (fst Plain.atRoot)
         = Panics SliceBoundsOutOfRange).
Proof.
  apply (@View_returns_iff_posts Plain.lipgloss Plain.bubblesList
           (fst Plain.atRoot)).
  vm_compute. split; discriminate.
Defined.

Lemma stored_path_is_not_the_file_read_witness :
  let w' :=
    match @Posts.loadPost Plain.siteStore (mkDirEntry "gradients.md" false)
            Posts.initWorld with
    | Returns (_, w2) => w2
    | Panics _ => Posts.initWorld
    end in
  exists p,
    Posts.allPosts w' = (Posts.allPosts Posts.initWorld ++ [p])%list
    /\ Posts.path p = "fs/posts" +:+ Name (mkDirEntry "gradients.md" false)
    /\ "fs" +:+ Posts.path p +:+ ".md"
       <> "fs/posts/" +:+ Name (mkDirEntry "gradients.md" false).
Proof.
  intros w'.
  apply (@stored_path_is_not_the_file_read
           Plain.siteStore (mkDirEntry "gradients.md" false)
           Posts.initWorld w').
  - reflexivity.
  - subst w'. vm_compute. reflexivity.
Defined.

Lemma post_list_accumulates_witness :
  exists added,
    Posts.items (Posts.posts (fst Plain.atRoot))
    = (Posts.allPosts Posts.initWorld ++ added)%list
    /\ forall width height,
         exists m2 w2,
           @Posts.teaHandler Plain.siteStore width height
             (snd (Plain.browseIn Plain.siteStore []))
           = Returns (m2, w2)
           /\ Posts.items (Posts.posts m2)
              = ((Posts.allPosts Posts.initWorld ++ added) ++ added)%list.
Proof.
  destruct (@post_list_accumulates Plain.siteStore 100 30 Posts.initWorld
              (fst (Plain.browseIn Plain.siteStore []))
              (snd (Plain.browseIn Plain.siteStore [])))
    as (added & Hi & Hnext).
  { vm_compute. reflexivity. }
  exists added. split; [|exact Hnext].
  rewrite <- Hi. vm_compute. reflexivity.
Defined.


